(** * Menu.tsx (react-aria-components): a shallow embedding

    The file models the components of
    [packages/react-aria-components/src/Menu.tsx]: [MenuTrigger], [Menu],
    [MenuInner], [MenuSection] and [MenuItemInner].

    - A JavaScript object (a props bag, a style object) is a finite map
      from property names to values; a JSX spread is a left-biased union
      and a JSX attribute is an insertion, applied in source order.
    - A component is a function from its props (and from the context value
      it reads) to the React element it returns; a [throw] is the
      [Throw] result.
    - The hooks and helpers imported from other packages are the fields of
      the class [Hooks]; every theorem holds for all of them.
    - React's rendering of an element tree is the function [render]. *)

From stdpp Require Import base option list gmap strings pretty.
From Stdlib Require Import NArith Lia.

Set Warnings "-register-all".

(** ** JavaScript values and objects *)

Module JS.

(** The values that occur as properties of the objects of the file.
    Functions (event handlers, ref callbacks) and nested objects are
    opaque handles. *)
Inductive Value :=
| VUndefined
| VNull
| VBool (b : bool)
| VNum (n : N)
| VStr (s : string)
| VOpaque (handle : nat).

Abbreviation Object := (gmap string Value).

(** [o.k]: a missing property reads as [undefined]. *)
Definition get (o : Object) (k : string) : Value :=
  default VUndefined (o !! k).

(** [ToBoolean]. *)
Definition truthy (v : Value) : bool :=
  match v with
  | VUndefined | VNull => false
  | VBool b => b
  | VNum n => negb (N.eqb n 0)
  | VStr s => negb (String.eqb s "")
  | VOpaque _ => true
  end.

(** [a || b] *)
Definition logical_or (a b : Value) : Value := if truthy a then a else b.

(** [a ?? b] *)
Definition nullish (a b : Value) : Value :=
  match a with
  | VUndefined | VNull => b
  | _ => a
  end.

(** The exceptions the file can raise: [new Error(message)], and the
    [TypeError] of a property read on [null]. *)
Inductive Exception :=
| Error (message : string)
| TypeError.

End JS.
Import JS.

(** ** Results of a render *)

Inductive Result (A : Type) :=
| Ok (a : A)
| Throw (e : Exception)
| OutOfFuel.
Arguments Ok {A} a.
Arguments Throw {A} e.
Arguments OutOfFuel {A}.

#[global] Instance Result_bind : MBind Result := fun A B k r =>
  match r with
  | Ok a => k a
  | Throw e => Throw e
  | OutOfFuel => OutOfFuel
  end.

(** [for (let item of items) res.push(f(item))]: the first exception
    ends the loop. *)
Fixpoint for_of {A B} (f : A -> Result B) (items : list A) : Result (list B) :=
  match items with
  | [] => Ok []
  | item :: rest =>
      b ← f item;
      bs ← for_of f rest;
      Ok (b :: bs)
  end.

(** ** Data model *)

(** [Key = string | number] *)
Inductive Key :=
| KStr (s : string)
| KNum (n : N).

(** User content ([item.rendered], [props.children], a portal): opaque. *)
Definition ReactNode := nat.
Definition ReactPortal := nat.

(** [Node<T>] of the collection: the fields the file reads. *)
Record Node := {
  type : string;
  key : Key;
  props : Object;
  rendered : ReactNode;
  aria_label : Value
}.

(** Modelled from the spec: [BaseCollection] (Collection.tsx is not part
    of the sources).  The collection is "a concrete, ordered node
    sequence": [nodes] is what iterating the collection yields, the
    top-level nodes in order; [getChildren] yields the children of a
    node; [size] is the number of items it holds. *)
Record BaseCollection := {
  size : nat;
  nodes : list Node;
  getChildren : Key -> list Node
}.

(** The top-level nodes are among the items [size] counts. *)
Definition realized (c : BaseCollection) : Prop :=
  length (nodes c) <= size c.

(** [SelectionMode = 'none' | 'single' | 'multiple'] *)
Inductive SelectionMode := none | single | multiple.

Definition SelectionMode_str (m : SelectionMode) : string :=
  match m with
  | none => "none"
  | single => "single"
  | multiple => "multiple"
  end.

(** [SelectionBehavior = 'toggle' | 'replace'] *)
Inductive SelectionBehavior := toggle | replace.

Record SelectionManager := {
  selectionMode : SelectionMode;
  selectionBehavior : SelectionBehavior
}.

(** [TreeState]: the fields the file reads. *)
Record TreeState := {
  collection : BaseCollection;
  selectionManager : SelectionManager
}.

(** What [useMenuTriggerState] returns: the field the file reads, and a
    handle for the rest. *)
Record OverlayTriggerState := {
  isOpen : bool;
  overlay_handle : nat
}.

(** The value [MenuTrigger] publishes for the popover. *)
Record PopoverProps := {
  trigger : string;
  triggerRef : Value;
  placement : string;
  popover_style : Object
}.

(** ** React elements *)

(** One pair of the [values] of a [Provider]. *)
Inductive ContextEntry :=
| MenuContext (v : Object)
| MenuStateContext (v : TreeState)
| SeparatorContext (v : Object)
| TextContext (label description : Object)
| KeyboardContext (v : Object)
| OverlayTriggerStateContext (v : OverlayTriggerState)
| PopoverContext (v : PopoverProps).

(** The props of [MenuSection]:
    [{section, className, style, ...otherProps}]. *)
Record MenuSectionProps := {
  section : Node;
  section_className : Value;
  section_style : Value;
  otherProps : Object
}.

(** The components the file imports and only instantiates. *)
Inductive External := Separator | Header | PressResponder.

(** What a component returns: JSX.  An element of a component of the file
    is not yet rendered; React calls the component later. *)
Inductive Element :=
| EFalse
| ENull
| EPortal (p : ReactPortal)
| ENode (n : ReactNode)
| EFragment (children : list Element)
| EHost (tag : string) (attrs : Object) (children : list Element)
| EProvider (values : list ContextEntry) (children : list Element)
| EExternal (c : External) (attrs : Object) (children : list Element)
| EMenu (props : Object) (ref : Value)
| EMenuInner (props : Object) (collection : BaseCollection) (menuRef : Value)
| EMenuSection (p : MenuSectionProps)
| EMenuItemInner (item : Node).

(** JSX attributes, in source order: [{...o}] and [k={v}]. *)
Definition spread (o : Object) (acc : Object) : Object := o ∪ acc.
Definition attr (k : string) (v : Value) (acc : Object) : Object := <[k:=v]> acc.

Notation "acc |> f" := (f acc) (at level 45, left associativity, only parsing).

(** ** The hooks and helpers of other packages *)

(** What [useMenuItem] returns. *)
Record MenuItemAria := {
  menuItemProps : Object;
  labelProps : Object;
  descriptionProps : Object;
  keyboardShortcutProps : Object;
  isFocused : bool;
  isSelected : bool;
  isPressed : bool;
  isDisabled : bool
}.

(** What [useFocusRing] returns. *)
Record FocusRingAria := {
  isFocusVisible : bool;
  focusProps : Object
}.

(** [MenuItemRenderProps]: the [values] the render props receive. *)
Record MenuItemRenderProps := {
  rp_isFocused : bool;
  rp_isSelected : bool;
  rp_isPressed : bool;
  rp_isDisabled : bool;
  rp_isHovered : bool;
  rp_isFocusVisible : bool;
  rp_selectionMode : SelectionMode;
  rp_selectionBehavior : SelectionBehavior
}.

(** The argument of [useRenderProps]: the fields [children],
    [defaultClassName] and [values] the object literal writes after the
    spread, and [spread_props], the other properties of the object: the
    spread props with [id] cleared. *)
Record RenderPropsOptions := {
  spread_props : Object;
  opt_children : ReactNode;
  defaultClassName : string;
  values : MenuItemRenderProps
}.

(** What [useRenderProps] returns: an object, of which the file reads
    [children] and spreads the rest. *)
Record RenderProps := {
  render_attrs : Object;
  children : ReactNode
}.

(** What [useMenuSection] returns. *)
Record MenuSectionAria := {
  headingProps : Object;
  groupProps : Object
}.

(** What [useMenuTrigger] returns. *)
Record MenuTriggerAria := {
  menuTriggerProps : Object;
  menuProps : Object
}.

(** The imported hooks and helpers, as functions of their arguments.  A
    hook that keeps state of its own ([useFocusRing], [useSlot]) is a
    function of the node its component instance renders.
    [useTreeSelection] is the selection manager of [useTreeState]. *)
Class Hooks := {
  useContextProps : Object -> Value -> option Object -> Object * Value;
  useCollection : Object -> option ReactPortal * BaseCollection;
  useTreeSelection : Object -> BaseCollection -> SelectionManager;
  useMenu : Object -> TreeState -> Value -> Object;
  useMenuSection : bool -> Value -> MenuSectionAria;
  useMenuItem : Key -> TreeState -> Value -> MenuItemAria;
  useFocusRing : Node -> FocusRingAria;
  useRenderProps : RenderPropsOptions -> RenderProps;
  useSlot : Node -> Value * bool;
  useObjectRef : Value -> Value;
  useMenuTriggerState : Object -> OverlayTriggerState;
  useMenuTrigger : Object -> OverlayTriggerState -> Value -> MenuTriggerAria;
  filterDOMProps : Object -> Object;
  mergeProps : Object -> Object -> Object;
  mergeRefs : Value -> Value -> Value
}.

(** ** The components *)

Section Components.
Context `{Hooks}.

(** Modelled from the spec: [useTreeState] (react-stately is not part of
    the sources) "builds tree state from the realized collection": the
    state's collection is the collection it is given, and the state "owns"
    a selection manager, here whatever [useTreeSelection] makes of the
    arguments. *)
Definition useTreeState (props : Object) (c : BaseCollection) : TreeState :=
  {| collection := c;
     selectionManager := useTreeSelection props c |}.

(** Modelled from the spec: [useCachedChildren] (Collection.tsx is not
    part of the sources) hands each node of [items] to the renderer
    [children], "in the collection's order", and returns the
    renderings. *)
Definition useCachedChildren (items : list Node)
    (children : Node -> Result Element) : Result (list Element) :=
  for_of children items.

(** *** MenuItemInner *)

(** The [values] object built for [useRenderProps]. *)
Definition MenuItemInner_values (state : TreeState) (states : MenuItemAria)
    (isFocusVisible : bool) : MenuItemRenderProps :=
  {| rp_isFocused := isFocused states;
     rp_isSelected := isSelected states;
     rp_isPressed := isPressed states;
     rp_isDisabled := isDisabled states;
     rp_isHovered := isFocused states;
     rp_isFocusVisible := isFocusVisible;
     rp_selectionMode := selectionMode (selectionManager state);
     rp_selectionBehavior := selectionBehavior (selectionManager state) |}.

(** [flag || undefined] *)
Definition flag_or_undefined (flag : bool) : Value :=
  logical_or (VBool flag) VUndefined.

(** The argument [MenuItemInner] gives to [useRenderProps]. *)
Definition MenuItemInner_options (state : TreeState) (item : Node) : RenderPropsOptions :=
  let ref := useObjectRef (get (props item) "ref") in
  let states := useMenuItem (key item) state ref in
  let ring := useFocusRing item in
  {| spread_props :=
       <["id":=VUndefined]>
         (delete "values" (delete "defaultClassName" (delete "children" (props item))));
     opt_children := rendered item;
     defaultClassName := "react-aria-MenuItem";
     values := MenuItemInner_values state states (isFocusVisible ring) |}.

(** The [children] that [{...renderProps}] spreads are replaced by the JSX
    children of the element, so only the other props are spread. *)
Definition MenuItemInner (state : TreeState) (item : Node) : Element :=
  let ref := useObjectRef (get (props item) "ref") in
  let states := useMenuItem (key item) state ref in
  let props := props item in
  let ring := useFocusRing item in
  let renderProps := useRenderProps (MenuItemInner_options state item) in
  let ElementType := if truthy (get props "href") then "a" else "div" in
  let mode := selectionMode (selectionManager state) in
  EHost ElementType
    (∅ |> spread (mergeProps (menuItemProps states) (focusProps ring))
       |> spread (render_attrs renderProps)
       |> attr "ref" ref
       |> attr "data-disabled" (flag_or_undefined (isDisabled states))
       |> attr "data-hovered" (flag_or_undefined (isFocused states))
       |> attr "data-focused" (flag_or_undefined (isFocused states))
       |> attr "data-focus-visible" (flag_or_undefined (isFocusVisible ring))
       |> attr "data-pressed" (flag_or_undefined (isPressed states))
       |> attr "data-selected" (flag_or_undefined (isSelected states))
       |> attr "data-selection-mode"
            (if String.eqb (SelectionMode_str mode) "none" then VUndefined
             else VStr (SelectionMode_str mode)))
    [EProvider
       [TextContext (labelProps states) (descriptionProps states);
        KeyboardContext (keyboardShortcutProps states)]
       [ENode (children renderProps)]].

(** *** MenuSection *)

(** The JSX children of an element replace a [children] prop that a
    spread brought: they are the children of the element, and no
    attribute. *)
Definition jsx_children (acc : Object) : Object := delete "children" acc.

(** The renderer [MenuSection] gives to [useCachedChildren]. *)
Definition MenuSection_child (headingProps : Object) (headingRef : Value)
    (item : Node) : Result Element :=
  if String.eqb (type item) "header" then
    let ref := get (props item) "ref" in
    let otherProps := delete "ref" (props item) in
    Ok (EExternal Header
          (∅ |> spread headingProps
             |> spread otherProps
             |> attr "ref" (mergeRefs headingRef ref)
             |> jsx_children)
          [ENode (rendered item)])
  else if String.eqb (type item) "item" then
    Ok (EMenuItemInner item)
  else
    Throw (Error ("Unsupported element type in Section: " +:+ type item)).

Definition MenuSection (state : TreeState) (p : MenuSectionProps) : Result Element :=
  let section := section p in
  let '(headingRef, heading) := useSlot section in
  let aria := useMenuSection heading (nullish (aria_label section) VUndefined) in
  children ← useCachedChildren
    (getChildren (collection state) (key section))
    (MenuSection_child (headingProps aria) headingRef);
  Ok (EHost "section"
        (∅ |> spread (filterDOMProps (otherProps p))
           |> spread (groupProps aria)
           |> attr "className"
                (logical_or
                   (logical_or (section_className p) (get (props section) "className"))
                   (VStr "react-aria-Section"))
           |> attr "style" (logical_or (section_style p) (get (props section) "style"))
           |> attr "ref" (get (props section) "ref"))
        children).

(** *** MenuInner *)

(** The renderer [MenuInner] gives to [useCachedChildren]. *)
Definition MenuInner_child (item : Node) : Result Element :=
  if String.eqb (type item) "section" then
    Ok (EMenuSection {| section := item;
                        section_className := VUndefined;
                        section_style := VUndefined;
                        otherProps := ∅ |})
  else if String.eqb (type item) "separator" then
    Ok (EExternal Separator (∅ |> spread (props item)) [])
  else if String.eqb (type item) "item" then
    Ok (EMenuItemInner item)
  else
    Throw (Error ("Unsupported node type in Menu: " +:+ type item)).

Definition MenuInner (props : Object) (c : BaseCollection)
    (ref : Value) : Result Element :=
  let state := useTreeState (<["children":=VUndefined]> props) c in
  let menuProps := useMenu props state ref in
  children ← useCachedChildren (nodes (collection state)) MenuInner_child;
  Ok (EHost "div"
        (∅ |> spread (filterDOMProps props)
           |> spread menuProps
           |> attr "ref" ref
           |> attr "slot" (logical_or (get props "slot") VUndefined)
           |> attr "onScroll" (get props "onScroll")
           |> attr "style" (get props "style")
           |> attr "className" (nullish (get props "className") (VStr "react-aria-Menu")))
        [EProvider
           [MenuStateContext state;
            SeparatorContext {[ "elementType" := VStr "div" ]}]
           children]).

(** *** Menu *)

Definition Menu (context : option Object) (props : Object) (ref : Value) : Element :=
  let '(props, ref) := useContextProps props ref context in
  let '(portal, c) := useCollection props in
  EFragment
    [ (if 0 <? size c then EMenuInner props c ref else EFalse);
      (match portal with Some p => EPortal p | None => ENull end) ].

End Components.

(** ** Rendering *)

(** The context values the components of the file read. *)
Record Context := {
  ctx_menu : option Object;
  ctx_menuState : option TreeState;
  ctx_popover : option PopoverProps
}.

Definition no_context : Context :=
  {| ctx_menu := None; ctx_menuState := None; ctx_popover := None |}.

Definition provide1 (e : ContextEntry) (ctx : Context) : Context :=
  match e with
  | MenuContext v =>
      {| ctx_menu := Some v; ctx_menuState := ctx_menuState ctx;
         ctx_popover := ctx_popover ctx |}
  | MenuStateContext v =>
      {| ctx_menu := ctx_menu ctx; ctx_menuState := Some v;
         ctx_popover := ctx_popover ctx |}
  | PopoverContext v =>
      {| ctx_menu := ctx_menu ctx; ctx_menuState := ctx_menuState ctx;
         ctx_popover := Some v |}
  | _ => ctx
  end.

(** [<Provider values={values}>]: every pair is published to the
    children. *)
Definition provide (values : list ContextEntry) (ctx : Context) : Context :=
  foldr provide1 ctx values.

(** The instances of the components of the file in a rendered tree. *)
Inductive Instance :=
| IMenu
| IMenuInner
| IMenuSection (section : Node)
| IMenuItemInner (item : Node).

(** A rendered tree: what React has mounted.  [false], [null] and
    fragments leave no node of their own. *)
Inductive Fiber :=
| FPortal (p : ReactPortal)
| FNode (n : ReactNode)
| FHost (tag : string) (attrs : Object) (children : list Fiber)
| FExternal (c : External) (attrs : Object) (children : list Fiber)
| FComponent (i : Instance) (children : list Fiber).

(** Render the children one after the other; the first exception aborts
    the render. *)
Fixpoint render_children (render1 : Element -> Result (list Fiber))
    (es : list Element) : Result (list Fiber) :=
  match es with
  | [] => Ok []
  | e :: es' =>
      fs ← render1 e;
      gs ← render_children render1 es';
      Ok (fs ++ gs)
  end.

Section Render.
Context `{Hooks}.

(** React's render of an element under the context [ctx]: a component
    is called, then what it returns is rendered.  [useContext(C)!] on a
    context without provider reads a property of [null]. *)
Fixpoint render (fuel : nat) (ctx : Context) (e : Element) : Result (list Fiber) :=
  match fuel with
  | O => OutOfFuel
  | S fuel' =>
      match e with
      | EFalse | ENull => Ok []
      | EPortal p => Ok [FPortal p]
      | ENode n => Ok [FNode n]
      | EFragment children => render_children (render fuel' ctx) children
      | EHost tag attrs children =>
          kids ← render_children (render fuel' ctx) children;
          Ok [FHost tag attrs kids]
      | EProvider values children =>
          render_children (render fuel' (provide values ctx)) children
      | EExternal c attrs children =>
          kids ← render_children (render fuel' ctx) children;
          Ok [FExternal c attrs kids]
      | EMenu props ref =>
          out ← render fuel' ctx (Menu (ctx_menu ctx) props ref);
          Ok [FComponent IMenu out]
      | EMenuInner props c ref =>
          el ← MenuInner props c ref;
          out ← render fuel' ctx el;
          Ok [FComponent IMenuInner out]
      | EMenuSection p =>
          match ctx_menuState ctx with
          | None => Throw TypeError
          | Some state =>
              el ← MenuSection state p;
              out ← render fuel' ctx el;
              Ok [FComponent (IMenuSection (section p)) out]
          end
      | EMenuItemInner item =>
          match ctx_menuState ctx with
          | None => Throw TypeError
          | Some state =>
              out ← render fuel' ctx (MenuItemInner state item);
              Ok [FComponent (IMenuItemInner item) out]
          end
      end
  end.

End Render.

(** ** MenuTrigger *)

(** The trigger's DOM node: the property the file reads. *)
Record HTMLElement := { offsetWidth : N }.

(** What React keeps for one mounted [MenuTrigger]: the ref object (its
    identity and its [current]) and the [useState] cell. *)
Record MenuTriggerInstance := {
  ref : Value;
  ref_current : option HTMLElement;
  buttonWidth : option string
}.

(** [ref.current.offsetWidth + 'px'] *)
Definition px (width : N) : string := pretty width +:+ "px".

Definition setButtonWidth (w : string) (i : MenuTriggerInstance) : MenuTriggerInstance :=
  {| ref := ref i; ref_current := ref_current i; buttonWidth := Some w |}.

Definition onResize (i : MenuTriggerInstance) : MenuTriggerInstance :=
  match ref_current i with
  | Some current => setButtonWidth (px (offsetWidth current)) i
  | None => i
  end.

(** The trigger element takes a new width. *)
Definition measure (width : N) (i : MenuTriggerInstance) : MenuTriggerInstance :=
  {| ref := ref i;
     ref_current := (fun _ => {| offsetWidth := width |}) <$> ref_current i;
     buttonWidth := buttonWidth i |}.

(** Modelled from the spec: [useResizeObserver] (@react-aria/utils is not
    part of the sources) "subscribes to resize events for the trigger's
    DOM node": a resize event of the element runs [onResize]. *)
Definition resize (i : MenuTriggerInstance) (width : N) : MenuTriggerInstance :=
  onResize (measure width i).

(** A sequence of resize events, oldest first. *)
Definition resizes (i : MenuTriggerInstance) (widths : list N) : MenuTriggerInstance :=
  foldl resize i widths.

Section Trigger.
Context `{Hooks}.

Definition MenuTrigger (props : Object) (children : list Element)
    (i : MenuTriggerInstance) : Element :=
  let state := useMenuTriggerState props in
  let ref := ref i in
  let aria := useMenuTrigger (<["type":=VStr "menu"]> props) state ref in
  EProvider
    [MenuContext (menuProps aria);
     OverlayTriggerStateContext state;
     PopoverContext
       {| trigger := "MenuTrigger";
          triggerRef := ref;
          placement := "bottom start";
          popover_style :=
            {[ "--trigger-width" :=
                 match buttonWidth i with Some w => VStr w | None => VNull end ]} |}]
    [EExternal PressResponder
       (∅ |> spread (menuTriggerProps aria)
          |> attr "ref" ref
          |> attr "isPressed" (VBool (isOpen state)))
       children].

End Trigger.

(** The [--trigger-width] a rendered [MenuTrigger] publishes in
    [PopoverContext]. *)
Definition published_trigger_width (e : Element) : option Value :=
  match e with
  | EProvider values _ =>
      p ← ctx_popover (provide values no_context);
      popover_style p !! "--trigger-width"
  | _ => None
  end.

(** ** What React DOM writes *)

(** An attribute whose value is [undefined] or [null] is not written. *)
Definition dom_attr (attrs : Object) (k : string) : option Value :=
  match attrs !! k with
  | Some VUndefined | Some VNull | None => None
  | Some v => Some v
  end.

Definition tag_of (e : Element) : option string :=
  match e with
  | EHost tag _ _ => Some tag
  | _ => None
  end.

Definition attrs_of (e : Element) : Object :=
  match e with
  | EHost _ attrs _ => attrs
  | _ => ∅
  end.

(** ** Sample inputs *)

Definition sample_aria (focused : bool) : MenuItemAria :=
  {| menuItemProps := {[ "role" := VStr "menuitem" ]};
     labelProps := ∅;
     descriptionProps := ∅;
     keyboardShortcutProps := ∅;
     isFocused := focused;
     isSelected := false;
     isPressed := false;
     isDisabled := false |}.

(** Hooks that realize the collection [c] and the portal [portal], pass
    the props through, and focus the items whose key is a number. *)
Definition sample_hooks (portal : option ReactPortal) (c : BaseCollection) : Hooks :=
  {| useContextProps := fun props ref _ => (props, ref);
     useCollection := fun _ => (portal, c);
     useTreeSelection := fun _ _ =>
       {| selectionMode := single; selectionBehavior := toggle |};
     useMenu := fun _ _ _ => {[ "role" := VStr "menu" ]};
     useMenuSection := fun _ _ =>
       {| headingProps := ∅; groupProps := {[ "role" := VStr "group" ]} |};
     useMenuItem := fun k _ _ =>
       sample_aria (match k with KNum _ => true | KStr _ => false end);
     useFocusRing := fun _ => {| isFocusVisible := false; focusProps := ∅ |};
     useRenderProps := fun o =>
       {| render_attrs := {[ "className" := VStr (defaultClassName o) ]};
          children := opt_children o |};
     useSlot := fun _ => (VOpaque 0, false);
     useObjectRef := fun r => r;
     useMenuTriggerState := fun _ => {| isOpen := true; overlay_handle := 0 |};
     useMenuTrigger := fun _ _ _ =>
       {| menuTriggerProps := ∅; menuProps := ∅ |};
     filterDOMProps := fun o => o;
     mergeProps := fun a b => b ∪ a;
     mergeRefs := fun a _ => a |}.

Definition sample_node (t : string) (k : Key) (p : Object) : Node :=
  {| type := t; key := k; props := p; rendered := 0; aria_label := VUndefined |}.

Definition empty_collection : BaseCollection :=
  {| size := 0; nodes := []; getChildren := fun _ => [] |}.

(** A section (with a header and an item), a separator and a link. *)
Definition sample_collection : BaseCollection :=
  {| size := 5;
     nodes := [ sample_node "section" (KStr "s") ∅;
                sample_node "separator" (KStr "sep") ∅;
                sample_node "item" (KNum 1) {[ "href" := VStr "/a" ]} ];
     getChildren := fun k =>
       match k with
       | KStr "s" => [ sample_node "header" (KStr "h") ∅;
                       sample_node "item" (KNum 2) ∅ ]
       | _ => []
       end |}.

(** A header placed at the top level of the menu. *)
Definition header_collection : BaseCollection :=
  {| size := 1;
     nodes := [ sample_node "header" (KStr "h") ∅ ];
     getChildren := fun _ => [] |}.

(** A separator placed inside a section. *)
Definition separator_in_section : BaseCollection :=
  {| size := 2;
     nodes := [ sample_node "section" (KStr "s") ∅ ];
     getChildren := fun k =>
       match k with
       | KStr "s" => [ sample_node "separator" (KStr "sep") ∅ ]
       | _ => []
       end |}.

(** An item whose [href] is the empty string, and a plain one. *)
Definition empty_href_item : Node :=
  sample_node "item" (KNum 3) {[ "href" := VStr "" ]}.

Definition link_item : Node :=
  sample_node "item" (KNum 4) {[ "href" := VStr "/a" ]}.

Definition sample_state (c : BaseCollection) (m : SelectionMode) : TreeState :=
  {| collection := c;
     selectionManager := {| selectionMode := m; selectionBehavior := toggle |} |}.

Definition sample_trigger : MenuTriggerInstance :=
  {| ref := VOpaque 1;
     ref_current := Some {| offsetWidth := 0 |};
     buttonWidth := None |}.

(** ** The vocabulary of the claims *)

(** The node types [MenuInner] renders, and those [MenuSection] renders. *)
Definition menu_types : list string := ["section"; "separator"; "item"].
Definition section_types : list string := ["header"; "item"].

(** [{portal}]: a portal leaves one node, [null] none. *)
Definition portal_fibers (portal : option ReactPortal) : list Fiber :=
  match portal with
  | Some p => [FPortal p]
  | None => []
  end.

(** [f] is the rendering of the node [n] by the component its type
    selects: [MenuSection] for a section, [Separator] for a separator,
    [MenuItemInner] for an item. *)
Definition renders_node (n : Node) (f : Fiber) : Prop :=
  match f with
  | FComponent (IMenuSection s) _ => type n = "section" ∧ s = n
  | FExternal Separator attrs [] => type n = "separator" ∧ attrs = props n
  | FComponent (IMenuItemInner item) _ => type n = "item" ∧ item = n
  | _ => False
  end.

(** The result [r] of rendering a [Menu] is one container, followed by
    the portal, and the container holds one rendering per top-level node
    of [c], in the order of [c]. *)
Definition one_container (c : BaseCollection) (portal : option ReactPortal)
    (r : Result (list Fiber)) : Prop :=
  ∃ attrs kids,
    r = Ok [FComponent IMenu
              (FComponent IMenuInner [FHost "div" attrs kids]
               :: portal_fibers portal)] ∧
    Forall2 renders_node (nodes c) kids.

(** No node of the collection has a type the menu cannot render: the
    top-level nodes are sections, separators and items, and the children
    of the sections are headers and items. *)
Definition supported (c : BaseCollection) : Prop :=
  Forall (fun n =>
            type n ∈ menu_types ∧
            (type n = "section" →
             Forall (fun child => type child ∈ section_types)
               (getChildren c (key n))))
    (nodes c).

(** The nodes for which a [MenuItemInner] is mounted in a rendered tree. *)
Fixpoint mounted_items (f : Fiber) : list Node :=
  match f with
  | FPortal _ | FNode _ => []
  | FHost _ _ kids | FExternal _ _ kids => flat_map mounted_items kids
  | FComponent i kids =>
      match i with IMenuItemInner item => [item] | _ => [] end
      ++ flat_map mounted_items kids
  end.

(** The nodes of a collection the menu reaches: the top-level nodes, and
    the children [getChildren] yields for the key of a top-level
    section. *)
Definition member (c : BaseCollection) (n : Node) : Prop :=
  n ∈ nodes c ∨
  ∃ s, s ∈ nodes c ∧ type s = "section" ∧ n ∈ getChildren c (key s).

(** [f] is the rendering of the child [child] of a section: a [Header]
    around the content of a header, a [MenuItemInner] for an item. *)
Definition renders_section_child (child : Node) (f : Fiber) : Prop :=
  match f with
  | FExternal Header _ [FNode content] =>
      type child = "header" ∧ content = rendered child
  | FComponent (IMenuItemInner item) _ => type child = "item" ∧ item = child
  | _ => False
  end.

(** The nodes of a collection the menu renders as items, in document
    order: the top-level items, and the items among the children of the
    top-level sections. *)
Definition item_nodes (c : BaseCollection) : list Node :=
  flat_map
    (fun n =>
       if String.eqb (type n) "section" then
         List.filter (fun child => String.eqb (type child) "item")
           (getChildren c (key n))
       else if String.eqb (type n) "item" then [n]
       else [])
    (nodes c).

(** A section with a separator inside, followed by a header at the top
    level. *)
Definition header_after_section : BaseCollection :=
  {| size := 3;
     nodes := [ sample_node "section" (KStr "s") ∅;
                sample_node "header" (KStr "h") ∅ ];
     getChildren := getChildren separator_in_section |}.

(** The mounted [MenuItemInner] instances of a rendered tree, each with
    what it rendered to. *)
Fixpoint mounted_renderings (f : Fiber) : list (Node * list Fiber) :=
  match f with
  | FPortal _ | FNode _ => []
  | FHost _ _ kids | FExternal _ _ kids => flat_map mounted_renderings kids
  | FComponent i kids =>
      match i with IMenuItemInner item => [(item, kids)] | _ => [] end
      ++ flat_map mounted_renderings kids
  end.

(** What the element [MenuItemInner] returns for [item] under the tree
    state [state] renders to: the element, with the rendered content as
    its child. *)
Definition MenuItemInner_fiber `{Hooks} (state : TreeState) (item : Node) : list Fiber :=
  [FHost (if truthy (get (props item) "href") then "a" else "div")
     (attrs_of (MenuItemInner state item))
     [FNode (children (useRenderProps (MenuItemInner_options state item)))]].

(** Three sections: the first with a header and an item; the second with
    an item, then a separator, then a footer; the third with a divider. *)
Definition three_sections : BaseCollection :=
  {| size := 9;
     nodes := [ sample_node "section" (KStr "a") ∅;
                sample_node "section" (KStr "b") ∅;
                sample_node "section" (KStr "c") ∅ ];
     getChildren := fun k =>
       match k with
       | KStr "a" => [ sample_node "header" (KStr "a0") ∅;
                       sample_node "item" (KStr "a1") ∅ ]
       | KStr "b" => [ sample_node "item" (KStr "b0") ∅;
                       sample_node "separator" (KStr "b1") ∅;
                       sample_node "footer" (KStr "b2") ∅ ]
       | KStr "c" => [ sample_node "divider" (KStr "c0") ∅ ]
       | _ => []
       end |}.

(** * Theorems *)

Lemma truthy_VStr s : truthy (VStr s) = true ↔ s ≠ "".
Proof.
  simpl. destruct (String.eqb_spec s ""); simpl; split; congruence.
Qed.

Lemma dom_attr_flag (attrs : Object) k flag :
  attrs !! k = Some (flag_or_undefined flag) →
  dom_attr attrs k = if flag then Some (VBool true) else None.
Proof. unfold dom_attr. intros ->. by destruct flag. Qed.

Section MenuItemInner_facts.
Context `{Hooks}.
Variables (state : TreeState) (item : Node).

Lemma MenuItemInner_tag :
  tag_of (MenuItemInner state item)
  = Some (if truthy (get (props item) "href") then "a" else "div").
Proof. reflexivity. Qed.

Lemma MenuItemInner_attrs_lookup :
  let states := useMenuItem (key item) state (useObjectRef (get (props item) "ref")) in
  let ring := useFocusRing item in
  let mode := selectionMode (selectionManager state) in
  let a := attrs_of (MenuItemInner state item) in
  a !! "data-disabled" = Some (flag_or_undefined (isDisabled states)) ∧
  a !! "data-hovered" = Some (flag_or_undefined (isFocused states)) ∧
  a !! "data-focused" = Some (flag_or_undefined (isFocused states)) ∧
  a !! "data-focus-visible" = Some (flag_or_undefined (isFocusVisible ring)) ∧
  a !! "data-pressed" = Some (flag_or_undefined (isPressed states)) ∧
  a !! "data-selected" = Some (flag_or_undefined (isSelected states)) ∧
  a !! "data-selection-mode"
    = Some (if String.eqb (SelectionMode_str mode) "none" then VUndefined
            else VStr (SelectionMode_str mode)).
Proof.
  simpl. unfold attr. repeat split; by simplify_map_eq.
Qed.

End MenuItemInner_facts.

(** ** MenuItemInner *)

Section MenuItemInner_claims.
Context `{Hooks}.

(** C5 (amended).  The element [MenuItemInner] renders is an anchor
    exactly when [props.href] is truthy, and a [div] exactly when it is
    not.  For an [href] that is a string, the element is an anchor exactly
    when the string is not empty; without [href] it is a [div]. *)
Theorem MenuItemInner_element_type (state : TreeState) (item : Node) :
  (tag_of (MenuItemInner state item) = Some "a"
     ↔ truthy (get (props item) "href") = true) ∧
  (tag_of (MenuItemInner state item) = Some "div"
     ↔ truthy (get (props item) "href") = false) ∧
  (∀ s, props item !! "href" = Some (VStr s) →
     (tag_of (MenuItemInner state item) = Some "a" ↔ s ≠ "")) ∧
  (props item !! "href" = None →
     tag_of (MenuItemInner state item) = Some "div").
Proof.
  rewrite MenuItemInner_tag.
  split_and!.
  - destruct (truthy _); split; congruence.
  - destruct (truthy _); split; congruence.
  - intros s Hs. unfold get. rewrite Hs. simpl default.
    rewrite <- truthy_VStr. destruct (truthy (VStr s)); split; congruence.
  - intros Hs. unfold get. by rewrite Hs.
Qed.

(** C6.  [data-selection-mode] is absent exactly when the selection mode
    of the tree state is ['none']; otherwise it is the selection mode. *)
Theorem MenuItemInner_data_selection_mode (state : TreeState) (item : Node) :
  (dom_attr (attrs_of (MenuItemInner state item)) "data-selection-mode" = None
     ↔ selectionMode (selectionManager state) = none) ∧
  (selectionMode (selectionManager state) ≠ none →
     dom_attr (attrs_of (MenuItemInner state item)) "data-selection-mode"
     = Some (VStr (SelectionMode_str (selectionMode (selectionManager state))))).
Proof.
  destruct (MenuItemInner_attrs_lookup state item) as (_&_&_&_&_&_&Hm).
  unfold dom_attr. rewrite Hm.
  destruct (selectionMode (selectionManager state)); simpl;
    (split; [split|]); congruence.
Qed.

(** C7.  The class name, the style and the children of the element of an
    item are those [useRenderProps] returns for an argument whose
    [isHovered] value is the focused state of the item, and
    [data-hovered] is that state too: it always agrees with
    [data-focused]. *)
Theorem MenuItemInner_isHovered_is_isFocused (state : TreeState) (item : Node) :
  (∃ tag attrs contexts,
     MenuItemInner state item
     = EHost tag attrs
         [EProvider contexts
            [ENode (children (useRenderProps (MenuItemInner_options state item)))]]) ∧
  attrs_of (MenuItemInner state item) !! "className"
    = (render_attrs (useRenderProps (MenuItemInner_options state item))
       ∪ mergeProps
           (menuItemProps (useMenuItem (key item) state
                             (useObjectRef (get (props item) "ref"))))
           (focusProps (useFocusRing item))) !! "className" ∧
  attrs_of (MenuItemInner state item) !! "style"
    = (render_attrs (useRenderProps (MenuItemInner_options state item))
       ∪ mergeProps
           (menuItemProps (useMenuItem (key item) state
                             (useObjectRef (get (props item) "ref"))))
           (focusProps (useFocusRing item))) !! "style" ∧
  rp_isHovered (values (MenuItemInner_options state item))
    = isFocused (useMenuItem (key item) state (useObjectRef (get (props item) "ref"))) ∧
  rp_isHovered (values (MenuItemInner_options state item))
    = rp_isFocused (values (MenuItemInner_options state item)) ∧
  dom_attr (attrs_of (MenuItemInner state item)) "data-hovered"
    = (if rp_isFocused (values (MenuItemInner_options state item))
       then Some (VBool true) else None) ∧
  dom_attr (attrs_of (MenuItemInner state item)) "data-hovered"
    = dom_attr (attrs_of (MenuItemInner state item)) "data-focused".
Proof.
  destruct (MenuItemInner_attrs_lookup state item) as (_&Hh&Hf&_).
  split_and!; try reflexivity.
  - by eexists _, _, _.
  - simpl. unfold attr, spread. rewrite !lookup_insert_ne by done.
    by rewrite (right_id_L ∅ (∪)).
  - simpl. unfold attr, spread. rewrite !lookup_insert_ne by done.
    by rewrite (right_id_L ∅ (∪)).
  - by rewrite (dom_attr_flag _ _ _ Hh).
  - by rewrite (dom_attr_flag _ _ _ Hh), (dom_attr_flag _ _ _ Hf).
Qed.

(** C8.  Each boolean data attribute is [true] when the flag of the same
    name among the render values is true and is absent when the flag is
    false; none is ever [false]. *)
Theorem MenuItemInner_data_attributes (state : TreeState) (item : Node) :
  dom_attr (attrs_of (MenuItemInner state item)) "data-disabled"
    = (if rp_isDisabled (values (MenuItemInner_options state item))
       then Some (VBool true) else None) ∧
  dom_attr (attrs_of (MenuItemInner state item)) "data-hovered"
    = (if rp_isHovered (values (MenuItemInner_options state item))
       then Some (VBool true) else None) ∧
  dom_attr (attrs_of (MenuItemInner state item)) "data-focused"
    = (if rp_isFocused (values (MenuItemInner_options state item))
       then Some (VBool true) else None) ∧
  dom_attr (attrs_of (MenuItemInner state item)) "data-focus-visible"
    = (if rp_isFocusVisible (values (MenuItemInner_options state item))
       then Some (VBool true) else None) ∧
  dom_attr (attrs_of (MenuItemInner state item)) "data-pressed"
    = (if rp_isPressed (values (MenuItemInner_options state item))
       then Some (VBool true) else None) ∧
  dom_attr (attrs_of (MenuItemInner state item)) "data-selected"
    = (if rp_isSelected (values (MenuItemInner_options state item))
       then Some (VBool true) else None) ∧
  Forall (fun k => dom_attr (attrs_of (MenuItemInner state item)) k ≠ Some (VBool false))
    ["data-disabled"; "data-hovered"; "data-focused"; "data-focus-visible";
     "data-pressed"; "data-selected"].
Proof.
  destruct (MenuItemInner_attrs_lookup state item) as (Hd&Hh&Hf&Hv&Hp&Hs&_).
  pose proof (dom_attr_flag _ _ _ Hd) as Ed.
  pose proof (dom_attr_flag _ _ _ Hh) as Eh.
  pose proof (dom_attr_flag _ _ _ Hf) as Ef.
  pose proof (dom_attr_flag _ _ _ Hv) as Ev.
  pose proof (dom_attr_flag _ _ _ Hp) as Ep.
  pose proof (dom_attr_flag _ _ _ Hs) as Es.
  split_and!; try assumption.
  repeat constructor.
  - rewrite Ed. by destruct (isDisabled _).
  - rewrite Eh. by destruct (isFocused _).
  - rewrite Ef. by destruct (isFocused _).
  - rewrite Ev. by destruct (isFocusVisible _).
  - rewrite Ep. by destruct (isPressed _).
  - rewrite Es. by destruct (isSelected _).
Qed.

End MenuItemInner_claims.

(** C5, as stated, fails for an item whose [href] is the empty string:
    the props include [href], the element is a [div]. *)
Lemma MenuItemInner_empty_href_counterexample :
  ¬ (tag_of (MenuItemInner (H:=sample_hooks None empty_collection)
               (sample_state empty_collection none) empty_href_item) = Some "a"
     ↔ is_Some (props empty_href_item !! "href")).
Proof.
  intros [_ Hinc].
  assert (Htag : tag_of (MenuItemInner (H:=sample_hooks None empty_collection)
                           (sample_state empty_collection none) empty_href_item)
                 = Some "div") by reflexivity.
  rewrite Hinc in Htag; [discriminate|].
  exists (VStr ""). reflexivity.
Qed.

Lemma MenuItemInner_element_type_witness :
  props link_item !! "href" = Some (VStr "/a") ∧
  tag_of (MenuItemInner (H:=sample_hooks None empty_collection)
            (sample_state empty_collection none) link_item) = Some "a".
Proof.
  split; [reflexivity|].
  apply (proj1 (proj2 (proj2
    (MenuItemInner_element_type (H:=sample_hooks None empty_collection)
       (sample_state empty_collection none) link_item))) "/a");
    [reflexivity | discriminate].
Defined.

Lemma MenuItemInner_data_selection_mode_witness :
  selectionMode (selectionManager (sample_state empty_collection multiple)) ≠ none ∧
  dom_attr (attrs_of (MenuItemInner (H:=sample_hooks None empty_collection)
                        (sample_state empty_collection multiple) link_item))
    "data-selection-mode" = Some (VStr "multiple").
Proof.
  split; [discriminate|].
  apply (proj2 (MenuItemInner_data_selection_mode (H:=sample_hooks None empty_collection)
                  (sample_state empty_collection multiple) link_item)).
  discriminate.
Defined.

(** ** MenuTrigger *)

Lemma resize_attached (i : MenuTriggerInstance) (width : N) :
  is_Some (ref_current i) →
  ref_current (resize i width) = Some {| offsetWidth := width |} ∧
  buttonWidth (resize i width) = Some (px width).
Proof.
  intros [current Hc]. unfold resize, onResize, measure. simpl.
  rewrite Hc. simpl. done.
Qed.

Lemma resizes_attached (i : MenuTriggerInstance) (widths : list N) :
  is_Some (ref_current i) → is_Some (ref_current (resizes i widths)).
Proof.
  revert i. induction widths as [|w ws IH]; intros i Hi; [done|].
  apply IH. destruct (resize_attached i w Hi) as [-> _]. by eexists.
Qed.

Lemma resizes_snoc (i : MenuTriggerInstance) (widths : list N) (width : N) :
  resizes i (widths ++ [width]) = resize (resizes i widths) width.
Proof. unfold resizes. by rewrite foldl_app. Qed.

Lemma published_buttonWidth `{Hooks} props children (i : MenuTriggerInstance) w :
  buttonWidth i = Some w →
  published_trigger_width (MenuTrigger props children i) = Some (VStr w).
Proof. intros Hw. unfold published_trigger_width, MenuTrigger. simpl. by rewrite Hw. Qed.

(** C10.  After a resize event of the mounted trigger element, and after
    any sequence of resize events that ends with it, the
    [--trigger-width] published in [PopoverContext] is the offset width
    the element now measures followed by [px]; the widths of the earlier
    events are gone. *)
Theorem MenuTrigger_trigger_width `{Hooks} (props : Object) (children : list Element)
    (i : MenuTriggerInstance) (earlier : list N) (width : N) :
  is_Some (ref_current i) →
  ref_current (resizes i (earlier ++ [width])) = Some {| offsetWidth := width |} ∧
  published_trigger_width (MenuTrigger props children (resizes i (earlier ++ [width])))
    = Some (VStr (pretty width +:+ "px")).
Proof.
  intros Hi. rewrite resizes_snoc.
  destruct (resize_attached (resizes i earlier) width) as [Hc Hw];
    [by apply resizes_attached|].
  split; [done|]. by apply published_buttonWidth.
Qed.

Lemma MenuTrigger_trigger_width_witness :
  is_Some (ref_current sample_trigger) ∧
  published_trigger_width
    (MenuTrigger (H:=sample_hooks None empty_collection) ∅ []
       (resizes sample_trigger ([120; 96] ++ [64])%N))
  = Some (VStr "64px").
Proof.
  split; [by eexists|].
  apply (MenuTrigger_trigger_width (H:=sample_hooks None empty_collection)
           ∅ [] sample_trigger [120; 96]%N 64%N).
  by eexists.
Defined.

(** ** Loops and results *)

Lemma bind_Ok {A B} (r : Result A) (k : A → Result B) (b : B) :
  r ≫= k = Ok b → ∃ a, r = Ok a ∧ k a = Ok b.
Proof. destruct r; simpl; intros; [eauto | discriminate..]. Qed.

Lemma for_of_all_Ok {A B} (f : A → Result B) (items : list A) :
  Forall (fun item => ∃ b, f item = Ok b) items →
  ∃ bs, for_of f items = Ok bs ∧ Forall2 (fun item b => f item = Ok b) items bs.
Proof.
  induction 1 as [|item rest [b Hb] _ (bs & Hbs & Hall)]; simpl.
  - exists []. by split.
  - exists (b :: bs). rewrite Hb. simpl. rewrite Hbs. simpl.
    split; [done|]. by constructor.
Qed.

Lemma for_of_Ok_inv {A B} (f : A → Result B) (items : list A) (bs : list B) :
  for_of f items = Ok bs → Forall2 (fun item b => f item = Ok b) items bs.
Proof.
  revert bs. induction items as [|item rest IH]; simpl; intros bs Hbs.
  - injection Hbs as <-. constructor.
  - apply bind_Ok in Hbs as (b & Hb & Hbs).
    apply bind_Ok in Hbs as (bs' & Hbs' & Hbs).
    injection Hbs as <-. constructor; auto.
Qed.

(** The loop stops at the first item whose rendering throws. *)
Lemma for_of_first_Throw {A B} (f : A → Result B) (before after : list A)
    (item : A) (e : Exception) :
  Forall (fun x => ∃ b, f x = Ok b) before →
  f item = Throw e →
  for_of f (before ++ item :: after) = Throw e.
Proof.
  intros Hbefore Hitem.
  induction Hbefore as [|x rest [b Hb] _ IH]; simpl.
  - by rewrite Hitem.
  - rewrite Hb. simpl. by rewrite IH.
Qed.

(** A list with an element outside [P] splits at the first such
    element. *)
Lemma first_outside {A} (P : A → Prop) `{∀ x, Decision (P x)} (l : list A) :
  Exists (fun x => ¬ P x) l →
  ∃ before x after, l = before ++ x :: after ∧ Forall P before ∧ ¬ P x.
Proof.
  induction l as [|a l IH]; intros Hex; [by inversion Hex|].
  destruct (decide (P a)) as [Ha|Ha].
  - inversion Hex as [|? ? Hl]; subst; [done|].
    destruct (IH Hl) as (before & x & after & -> & Hb & Hx).
    exists (a :: before), x, after. split_and!; [done| by constructor | done].
  - exists [], a, l. split_and!; [done | constructor | done].
Qed.

(** ** Unsupported node types *)

Section Dispatch.
Context `{Hooks}.

Lemma MenuInner_child_supported (item : Node) :
  type item ∈ menu_types → ∃ el, MenuInner_child item = Ok el.
Proof.
  unfold menu_types. rewrite !elem_of_cons, elem_of_nil.
  intros [Ht|[Ht|[Ht|[]]]]; unfold MenuInner_child; rewrite Ht; simpl; eauto.
Qed.

Lemma MenuInner_child_unsupported (item : Node) :
  type item ∉ menu_types →
  MenuInner_child item = Throw (Error ("Unsupported node type in Menu: " +:+ type item)).
Proof.
  unfold menu_types. rewrite !elem_of_cons, elem_of_nil. intros Ht.
  unfold MenuInner_child.
  destruct (String.eqb_spec (type item) "section"); [tauto|].
  destruct (String.eqb_spec (type item) "separator"); [tauto|].
  destruct (String.eqb_spec (type item) "item"); [tauto|].
  reflexivity.
Qed.

Lemma MenuSection_child_supported (headingProps : Object) (headingRef : Value)
    (item : Node) :
  type item ∈ section_types →
  ∃ el, MenuSection_child headingProps headingRef item = Ok el.
Proof.
  unfold section_types. rewrite !elem_of_cons, elem_of_nil.
  intros [Ht|[Ht|[]]]; unfold MenuSection_child; rewrite Ht; simpl; eauto.
Qed.

Lemma MenuSection_child_unsupported (headingProps : Object) (headingRef : Value)
    (item : Node) :
  type item ∉ section_types →
  MenuSection_child headingProps headingRef item
  = Throw (Error ("Unsupported element type in Section: " +:+ type item)).
Proof.
  unfold section_types. rewrite !elem_of_cons, elem_of_nil. intros Ht.
  unfold MenuSection_child.
  destruct (String.eqb_spec (type item) "header"); [tauto|].
  destruct (String.eqb_spec (type item) "item"); [tauto|].
  reflexivity.
Qed.

(** C3.  The renderer of the menu body throws
    ["Unsupported node type in Menu: " + type] on a node whose type is
    not ['section'], ['separator'] or ['item'], and returns an element on
    a node of one of these types.  A menu body with such a node throws
    this error for a node of its collection (the first such node), when
    [MenuInner] is called and when React renders it; a menu body without
    one returns. *)
Theorem MenuInner_unsupported_node_type :
  (∀ item, type item ∉ menu_types →
     MenuInner_child item
     = Throw (Error ("Unsupported node type in Menu: " +:+ type item))) ∧
  (∀ item, type item ∈ menu_types → ∃ el, MenuInner_child item = Ok el) ∧
  (∀ props c ref,
     Exists (fun item => type item ∉ menu_types) (nodes c) →
     ∃ item, item ∈ nodes c ∧ (type item ∉ menu_types) ∧
       MenuInner props c ref
       = Throw (Error ("Unsupported node type in Menu: " +:+ type item)) ∧
       (∀ fuel ctx, render (S fuel) ctx (EMenuInner props c ref)
        = Throw (Error ("Unsupported node type in Menu: " +:+ type item)))) ∧
  (∀ props c ref,
     Forall (fun item => type item ∈ menu_types) (nodes c) →
     ∃ el, MenuInner props c ref = Ok el).
Proof.
  split_and!.
  - apply MenuInner_child_unsupported.
  - apply MenuInner_child_supported.
  - intros props c ref Hex.
    destruct (first_outside (fun item => type item ∈ menu_types) (nodes c))
      as (before & item & after & Hnodes & Hbefore & Hitem); [done|].
    assert (Hthrow : MenuInner props c ref
      = Throw (Error ("Unsupported node type in Menu: " +:+ type item))).
    { unfold MenuInner, useCachedChildren. simpl. rewrite Hnodes.
      rewrite (for_of_first_Throw MenuInner_child before after item
                 (Error ("Unsupported node type in Menu: " +:+ type item))).
      - reflexivity.
      - eapply Forall_impl; [exact Hbefore|]. apply MenuInner_child_supported.
      - by apply MenuInner_child_unsupported. }
    exists item. split_and!; [|done|done|].
    + rewrite Hnodes. apply elem_of_app. right. apply elem_of_cons. by left.
    + intros fuel ctx. simpl. by rewrite Hthrow.
  - intros props c ref Hall.
    destruct (for_of_all_Ok MenuInner_child (nodes c)) as (children & Hc & _).
    { eapply Forall_impl; [exact Hall|]. apply MenuInner_child_supported. }
    unfold MenuInner, useCachedChildren. simpl. rewrite Hc. simpl. eauto.
Qed.

(** C4.  The renderer of a section throws
    ["Unsupported element type in Section: " + type] on a child whose
    type is not ['header'] or ['item'], and returns an element on a child
    of one of these types.  A section with such a child throws this error
    for one of its children (the first such child), when [MenuSection] is
    called and when React renders it; a section without one returns. *)
Theorem MenuSection_unsupported_element_type :
  (∀ headingProps headingRef item, type item ∉ section_types →
     MenuSection_child headingProps headingRef item
     = Throw (Error ("Unsupported element type in Section: " +:+ type item))) ∧
  (∀ headingProps headingRef item, type item ∈ section_types →
     ∃ el, MenuSection_child headingProps headingRef item = Ok el) ∧
  (∀ state p,
     Exists (fun item => type item ∉ section_types)
       (getChildren (collection state) (key (section p))) →
     ∃ item, item ∈ getChildren (collection state) (key (section p)) ∧
       (type item ∉ section_types) ∧
       MenuSection state p
       = Throw (Error ("Unsupported element type in Section: " +:+ type item)) ∧
       (∀ fuel ctx, ctx_menuState ctx = Some state →
          render (S fuel) ctx (EMenuSection p)
          = Throw (Error ("Unsupported element type in Section: " +:+ type item)))) ∧
  (∀ state p,
     Forall (fun item => type item ∈ section_types)
       (getChildren (collection state) (key (section p))) →
     ∃ el, MenuSection state p = Ok el).
Proof.
  split_and!.
  - apply MenuSection_child_unsupported.
  - apply MenuSection_child_supported.
  - intros state p Hex.
    destruct (first_outside (fun item => type item ∈ section_types)
                (getChildren (collection state) (key (section p))))
      as (before & item & after & Hnodes & Hbefore & Hitem); [done|].
    assert (Hthrow : MenuSection state p
      = Throw (Error ("Unsupported element type in Section: " +:+ type item))).
    { unfold MenuSection, useCachedChildren.
      destruct (useSlot (section p)) as [headingRef heading].
      rewrite Hnodes.
      rewrite (for_of_first_Throw _ before after item
                 (Error ("Unsupported element type in Section: " +:+ type item))).
      - reflexivity.
      - eapply Forall_impl; [exact Hbefore|].
        intros x. apply MenuSection_child_supported.
      - by apply MenuSection_child_unsupported. }
    exists item. split_and!; [|done|done|].
    + rewrite Hnodes. apply elem_of_app. right. apply elem_of_cons. by left.
    + intros fuel ctx Hctx. simpl. by rewrite Hctx, Hthrow.
  - intros state p Hall.
    unfold MenuSection, useCachedChildren.
    destruct (useSlot (section p)) as [headingRef heading].
    destruct (for_of_all_Ok
                (MenuSection_child
                   (headingProps (useMenuSection heading
                                    (nullish (aria_label (section p)) VUndefined)))
                   headingRef)
                (getChildren (collection state) (key (section p))))
      as (children & Hc & _).
    { eapply Forall_impl; [exact Hall|].
      intros x. apply MenuSection_child_supported. }
    rewrite Hc. simpl. eauto.
Qed.

End Dispatch.

Lemma MenuInner_unsupported_node_type_witness :
  Exists (fun item => type item ∉ menu_types) (nodes header_collection) ∧
  MenuInner (H:=sample_hooks None header_collection) ∅ header_collection VNull
  = Throw (Error "Unsupported node type in Menu: header").
Proof.
  assert (Hex : Exists (fun item => type item ∉ menu_types) (nodes header_collection)).
  { constructor. unfold menu_types. simpl.
    rewrite !elem_of_cons, elem_of_nil. intros [?|[?|[?|[]]]]; discriminate. }
  split; [exact Hex|].
  destruct (proj1 (proj2 (proj2
    (MenuInner_unsupported_node_type (H:=sample_hooks None header_collection))))
    ∅ header_collection VNull Hex) as (item & Hin & _ & Hthrow & _).
  apply list_elem_of_singleton in Hin. subst item. exact Hthrow.
Defined.

Lemma MenuSection_unsupported_element_type_witness :
  Exists (fun item => type item ∉ section_types)
    (getChildren separator_in_section (KStr "s")) ∧
  MenuSection (H:=sample_hooks None separator_in_section)
    (sample_state separator_in_section none)
    {| section := sample_node "section" (KStr "s") ∅;
       section_className := VUndefined;
       section_style := VUndefined;
       otherProps := ∅ |}
  = Throw (Error "Unsupported element type in Section: separator").
Proof.
  assert (Hex : Exists (fun item => type item ∉ section_types)
                  (getChildren separator_in_section (KStr "s"))).
  { constructor. unfold section_types. simpl.
    rewrite !elem_of_cons, elem_of_nil. intros [?|[?|[]]]; discriminate. }
  split; [exact Hex|].
  destruct (proj1 (proj2 (proj2
    (MenuSection_unsupported_element_type (H:=sample_hooks None separator_in_section))))
    (sample_state separator_in_section none)
    {| section := sample_node "section" (KStr "s") ∅;
       section_className := VUndefined;
       section_style := VUndefined;
       otherProps := ∅ |} Hex) as (item & Hin & _ & Hthrow & _).
  apply list_elem_of_singleton in Hin. subst item. exact Hthrow.
Defined.

(** ** Rendering, one step at a time *)

Section Render_steps.
Context `{Hooks}.
Variables (fuel : nat) (ctx : Context).

Lemma render_ENode n : render (S fuel) ctx (ENode n) = Ok [FNode n].
Proof. reflexivity. Qed.

Lemma render_EFragment children :
  render (S fuel) ctx (EFragment children)
  = render_children (render fuel ctx) children.
Proof. reflexivity. Qed.

Lemma render_EHost tag attrs children :
  render (S fuel) ctx (EHost tag attrs children)
  = kids ← render_children (render fuel ctx) children; Ok [FHost tag attrs kids].
Proof. reflexivity. Qed.

Lemma render_EProvider values children :
  render (S fuel) ctx (EProvider values children)
  = render_children (render fuel (provide values ctx)) children.
Proof. reflexivity. Qed.

Lemma render_EExternal c attrs children :
  render (S fuel) ctx (EExternal c attrs children)
  = kids ← render_children (render fuel ctx) children; Ok [FExternal c attrs kids].
Proof. reflexivity. Qed.

Lemma render_EMenu props ref :
  render (S fuel) ctx (EMenu props ref)
  = out ← render fuel ctx (Menu (ctx_menu ctx) props ref); Ok [FComponent IMenu out].
Proof. reflexivity. Qed.

Lemma render_EMenuInner props c ref :
  render (S fuel) ctx (EMenuInner props c ref)
  = el ← MenuInner props c ref;
    out ← render fuel ctx el;
    Ok [FComponent IMenuInner out].
Proof. reflexivity. Qed.

Lemma render_EMenuSection state p :
  ctx_menuState ctx = Some state →
  render (S fuel) ctx (EMenuSection p)
  = el ← MenuSection state p;
    out ← render fuel ctx el;
    Ok [FComponent (IMenuSection (section p)) out].
Proof. intros Hs. simpl. by rewrite Hs. Qed.

Lemma render_EMenuItemInner state item :
  ctx_menuState ctx = Some state →
  render (S fuel) ctx (EMenuItemInner item)
  = out ← render fuel ctx (MenuItemInner state item);
    Ok [FComponent (IMenuItemInner item) out].
Proof. intros Hs. simpl. by rewrite Hs. Qed.

End Render_steps.

Lemma render_Ok_fuel `{Hooks} fuel ctx e out :
  render fuel ctx e = Ok out → ∃ fuel', fuel = S fuel'.
Proof. destruct fuel; [discriminate | eauto]. Qed.

Lemma render_children_singletons (render1 : Element → Result (list Fiber))
    (es : list Element) (fs : list Fiber) :
  Forall2 (fun e f => render1 e = Ok [f]) es fs →
  render_children render1 es = Ok fs.
Proof.
  induction 1 as [|e f es fs He _ IH]; simpl; [done|].
  rewrite He. simpl. by rewrite IH.
Qed.

Lemma render_children_Ok_inv (render1 : Element → Result (list Fiber))
    (es : list Element) (out : list Fiber) :
  render_children render1 es = Ok out →
  ∃ fss, Forall2 (fun e fs => render1 e = Ok fs) es fss ∧ out = concat fss.
Proof.
  revert out. induction es as [|e es IH]; simpl; intros out Hout.
  - injection Hout as <-. exists []. split; [constructor | done].
  - apply bind_Ok in Hout as (fs & Hfs & Hout).
    apply bind_Ok in Hout as (gs & Hgs & Hout).
    injection Hout as <-.
    destruct (IH _ Hgs) as (fss & Hall & ->).
    exists (fs :: fss). split; [by constructor | done].
Qed.

(** ** A menu whose node types are all supported renders *)

(** Children that each render to one node render to the list of these
    nodes. *)
Lemma render_children_each {A} (g : A → Result Element)
    (render1 : Element → Result (list Fiber)) (P : A → Fiber → Prop)
    (xs : list A) (es : list Element) :
  Forall2 (fun x e => g x = Ok e) xs es →
  Forall (fun x => ∀ e, g x = Ok e → ∃ f, render1 e = Ok [f] ∧ P x f) xs →
  ∃ kids, render_children render1 es = Ok kids ∧ Forall2 P xs kids.
Proof.
  intros Hg Hall.
  assert (∃ kids, Forall2 (fun e f => render1 e = Ok [f]) es kids ∧ Forall2 P xs kids)
    as (kids & Hkids & HP).
  { induction Hg as [|x e xs es Hx _ IH]; [by exists []|].
    inversion Hall as [|? ? Hx' Hxs]; subst.
    destruct (IH Hxs) as (kids & Hkids & HP).
    destruct (Hx' e Hx) as (f & Hf & HPf).
    exists (f :: kids). split; by constructor. }
  exists kids. split; [|done]. by apply render_children_singletons.
Qed.

Section Render_total.
Context `{Hooks}.

Lemma render_wrapped_node fuel ctx tag attrs values n :
  render (3 + fuel) ctx (EHost tag attrs [EProvider values [ENode n]])
  = Ok [FHost tag attrs [FNode n]].
Proof. reflexivity. Qed.

Lemma render_MenuItemInner_Ok fuel ctx state (item : Node) :
  ctx_menuState ctx = Some state →
  ∃ tag attrs n,
    render (4 + fuel) ctx (EMenuItemInner item)
    = Ok [FComponent (IMenuItemInner item) [FHost tag attrs [FNode n]]].
Proof.
  intros Hstate. change (4 + fuel) with (S (3 + fuel)).
  rewrite (render_EMenuItemInner _ _ state) by done.
  unfold MenuItemInner. rewrite render_wrapped_node.
  cbn [mbind Result_bind]. eauto.
Qed.

Lemma render_section_child_Ok fuel ctx state (headingProps : Object)
    (headingRef : Value) (item : Node) (el : Element) :
  ctx_menuState ctx = Some state →
  MenuSection_child headingProps headingRef item = Ok el →
  ∃ f, render (4 + fuel) ctx el = Ok [f].
Proof.
  intros Hstate. unfold MenuSection_child.
  destruct (String.eqb (type item) "header").
  { intros [= <-]. eexists. reflexivity. }
  destruct (String.eqb (type item) "item"); [|discriminate].
  intros [= <-].
  destruct (render_MenuItemInner_Ok fuel ctx state item Hstate)
    as (tag & attrs & n & Hout).
  eauto.
Qed.

Lemma render_MenuSection_Ok fuel ctx state (p : MenuSectionProps) :
  ctx_menuState ctx = Some state →
  Forall (fun child => type child ∈ section_types)
    (getChildren (collection state) (key (section p))) →
  ∃ out, render (6 + fuel) ctx (EMenuSection p)
         = Ok [FComponent (IMenuSection (section p)) out].
Proof.
  intros Hstate Hall. change (6 + fuel) with (S (S (4 + fuel))).
  rewrite (render_EMenuSection _ _ state) by done.
  unfold MenuSection, useCachedChildren.
  destruct (useSlot (section p)) as [headingRef heading].
  destruct (for_of_all_Ok
              (MenuSection_child
                 (headingProps (useMenuSection heading
                                  (nullish (aria_label (section p)) VUndefined)))
                 headingRef)
              (getChildren (collection state) (key (section p))))
    as (children & Hc & Hch).
  { apply (Forall_impl _ _ _ Hall).
    intros x. apply MenuSection_child_supported. }
  rewrite Hc. cbn [mbind Result_bind]. rewrite render_EHost.
  destruct (render_children_each _ (render (4 + fuel) ctx) (fun _ _ => True) _ _ Hch)
    as (kids & Hkids & _).
  { apply Forall_forall. intros x _ e Hx.
    destruct (render_section_child_Ok fuel ctx state _ _ _ _ Hstate Hx) as [f Hf].
    eauto. }
  rewrite Hkids. cbn [mbind Result_bind]. eauto.
Qed.

Lemma render_menu_child_Ok fuel ctx state (n : Node) (el : Element) :
  ctx_menuState ctx = Some state →
  MenuInner_child n = Ok el →
  (type n = "section" →
   Forall (fun child => type child ∈ section_types)
     (getChildren (collection state) (key n))) →
  ∃ f, render (6 + fuel) ctx el = Ok [f] ∧ renders_node n f.
Proof.
  intros Hstate. unfold MenuInner_child.
  destruct (String.eqb_spec (type n) "section") as [Ht|_].
  { intros [= <-] Hch.
    destruct (render_MenuSection_Ok fuel ctx state
                {| section := n; section_className := VUndefined;
                   section_style := VUndefined; otherProps := ∅ |}
                Hstate (Hch Ht))
      as [out Hout].
    eexists. split; [exact Hout|]. by split. }
  destruct (String.eqb_spec (type n) "separator") as [Ht|_].
  { intros [= <-] _. eexists. split; [reflexivity|].
    split; [done|]. unfold spread. apply (right_id_L ∅ (∪)). }
  destruct (String.eqb_spec (type n) "item") as [Ht|_]; [|discriminate].
  intros [= <-] _.
  destruct (render_MenuItemInner_Ok (2 + fuel) ctx state n Hstate)
    as (tag & attrs & r & Hout).
  eexists. split; [exact Hout|]. by split.
Qed.

Lemma render_menu_children_Ok fuel ctx state (ns : list Node)
    (children : list Element) :
  ctx_menuState ctx = Some state →
  Forall2 (fun n el => MenuInner_child n = Ok el) ns children →
  Forall (fun n => type n = "section" →
            Forall (fun child => type child ∈ section_types)
              (getChildren (collection state) (key n))) ns →
  ∃ kids, render_children (render (6 + fuel) ctx) children = Ok kids ∧
          Forall2 renders_node ns kids.
Proof.
  intros Hstate Hch Hsec.
  apply (render_children_each MenuInner_child); [done|].
  eapply Forall_impl; [exact Hsec|].
  intros n Hn e He. by apply (render_menu_child_Ok fuel ctx state).
Qed.

End Render_total.

(** ** Menu *)

Section Menu_claims.
Context `{Hooks}.

Lemma render_portal fuel ctx (portal : option ReactPortal) :
  render (S fuel) ctx (match portal with Some p => EPortal p | None => ENull end)
  = Ok (portal_fibers portal).
Proof. by destruct portal. Qed.

(** C1 (amended).  For a realized collection with one or more top-level
    nodes and no node of an unsupported type, rendering the [Menu] gives
    exactly one container, and the container holds one rendering per
    top-level node (a [MenuSection] for a section, a [Separator] for a
    separator, a [MenuItemInner] for an item), in the order of the
    collection. *)
Theorem Menu_renders_one_container (fuel : nat) (ctx : Context)
    (props props' : Object) (ref ref' : Value) (portal : option ReactPortal)
    (c : BaseCollection) :
  useContextProps props ref (ctx_menu ctx) = (props', ref') →
  useCollection props' = (portal, c) →
  realized c →
  nodes c ≠ [] →
  supported c →
  one_container c portal (render (11 + fuel) ctx (EMenu props ref)).
Proof.
  intros Hprops Hcoll Hreal Hnodes Hsup.
  assert (Hsize : (0 <? size c) = true).
  { apply Nat.ltb_lt. unfold realized in Hreal.
    destruct (nodes c); [done|]. simpl in Hreal. lia. }
  destruct (for_of_all_Ok MenuInner_child (nodes c)) as (children & Hc & Hch).
  { eapply Forall_impl; [exact Hsup|].
    intros n [Hn _]. by apply MenuInner_child_supported. }
  destruct (render_menu_children_Ok fuel
              (provide [MenuStateContext
                          (useTreeState (<["children":=VUndefined]> props') c);
                        SeparatorContext {[ "elementType" := VStr "div" ]}] ctx)
              (useTreeState (<["children":=VUndefined]> props') c)
              (nodes c) children)
    as (kids & Hkids & Hrender); [done | done | |].
  { eapply Forall_impl; [exact Hsup|]. by intros n [_ Hn]. }
  unfold one_container.
  change (11 + fuel) with (S (S (S (S (S (6 + fuel)))))).
  rewrite render_EMenu. unfold Menu. rewrite Hprops, Hcoll, Hsize.
  rewrite render_EFragment. cbn [render_children].
  rewrite render_EMenuInner, render_portal.
  unfold MenuInner, useCachedChildren.
  change (nodes (collection (useTreeState (<["children":=VUndefined]> props') c)))
    with (nodes c).
  rewrite Hc. cbn [mbind Result_bind].
  rewrite render_EHost. cbn [render_children].
  rewrite render_EProvider, Hkids. cbn [mbind Result_bind].
  rewrite !app_nil_r.
  eexists _, kids. split; [reflexivity | done].
Qed.

(** C2.  For a realized collection whose size is zero, [Menu] returns
    [false] in place of the menu and rendering it mounts no container and
    no item: the only output is the portal, when there is one. *)
Theorem Menu_empty_collection (fuel : nat) (ctx : Context)
    (props props' : Object) (ref ref' : Value) (portal : option ReactPortal)
    (c : BaseCollection) :
  useContextProps props ref (ctx_menu ctx) = (props', ref') →
  useCollection props' = (portal, c) →
  size c = 0 →
  Menu (ctx_menu ctx) props ref
    = EFragment [EFalse; match portal with Some p => EPortal p | None => ENull end] ∧
  render (3 + fuel) ctx (EMenu props ref)
    = Ok [FComponent IMenu (portal_fibers portal)].
Proof.
  intros Hprops Hcoll Hsize.
  assert (HMenu : Menu (ctx_menu ctx) props ref
    = EFragment [EFalse; match portal with Some p => EPortal p | None => ENull end]).
  { unfold Menu. by rewrite Hprops, Hcoll, Hsize. }
  split; [done|].
  change (3 + fuel) with (S (S (S fuel))).
  rewrite render_EMenu, HMenu, render_EFragment. cbn [render_children].
  rewrite render_portal. cbn [render mbind Result_bind].
  by rewrite app_nil_r.
Qed.

End Menu_claims.

(** C1, as stated, fails for a collection with a header at the top level
    and for a collection with a separator inside a section: each has a
    top-level node, and rendering the [Menu] throws; whatever the fuel,
    the render does not give a container. *)
Lemma Menu_unsupported_type_counterexample :
  (realized header_collection ∧ nodes header_collection ≠ [] ∧
   render (H:=sample_hooks None header_collection) 11 no_context (EMenu ∅ VNull)
     = Throw (Error "Unsupported node type in Menu: header") ∧
   (∀ fuel, ¬ one_container header_collection None
                (render (H:=sample_hooks None header_collection) fuel no_context
                   (EMenu ∅ VNull)))) ∧
  (realized separator_in_section ∧ nodes separator_in_section ≠ [] ∧
   render (H:=sample_hooks None separator_in_section) 11 no_context (EMenu ∅ VNull)
     = Throw (Error "Unsupported element type in Section: separator") ∧
   (∀ fuel, ¬ one_container separator_in_section None
                (render (H:=sample_hooks None separator_in_section) fuel no_context
                   (EMenu ∅ VNull)))).
Proof.
  split; (split_and!;
    [ unfold realized; simpl; lia
    | discriminate
    | reflexivity
    | intros fuel (attrs & kids & Hr & _);
      do 8 (destruct fuel as [|fuel]; [discriminate Hr|]); discriminate Hr ]).
Qed.

Lemma Menu_renders_one_container_witness :
  realized sample_collection ∧ nodes sample_collection ≠ [] ∧
  supported sample_collection ∧
  one_container sample_collection (Some 7)
    (render (H:=sample_hooks (Some 7) sample_collection) (11 + 0) no_context
       (EMenu ∅ VNull)).
Proof.
  assert (Hreal : realized sample_collection) by (unfold realized; simpl; lia).
  assert (Hnodes : nodes sample_collection ≠ []) by discriminate.
  assert (Hsup : supported sample_collection).
  { unfold supported, menu_types, section_types. simpl.
    repeat constructor; try discriminate; set_solver. }
  split_and!; try done.
  apply (Menu_renders_one_container (H:=sample_hooks (Some 7) sample_collection)
           0 no_context ∅ ∅ VNull VNull (Some 7) sample_collection);
    done.
Defined.

Lemma Menu_empty_collection_witness :
  size empty_collection = 0 ∧
  render (H:=sample_hooks (Some 7) empty_collection) (3 + 0) no_context (EMenu ∅ VNull)
  = Ok [FComponent IMenu [FPortal 7]].
Proof.
  split; [reflexivity|].
  apply (Menu_empty_collection (H:=sample_hooks (Some 7) empty_collection)
           0 no_context ∅ ∅ VNull VNull (Some 7) empty_collection);
    reflexivity.
Defined.

(** ** The nodes MenuItemInner is mounted for *)

Lemma elem_of_mounted_app (fs gs : list Fiber) (item : Node) :
  item ∈ flat_map mounted_items (fs ++ gs) ↔
  item ∈ flat_map mounted_items fs ∨ item ∈ flat_map mounted_items gs.
Proof. rewrite flat_map_app. apply elem_of_app. Qed.

(** What is mounted under a list of children is mounted under one of
    them. *)
Lemma mounted_children {A} (g : A → Result Element)
    (render1 : Element → Result (list Fiber)) (Q : Node → Prop)
    (xs : list A) (es : list Element) (out : list Fiber) :
  Forall2 (fun x e => g x = Ok e) xs es →
  render_children render1 es = Ok out →
  (∀ x e fs, x ∈ xs → g x = Ok e → render1 e = Ok fs →
     ∀ item, item ∈ flat_map mounted_items fs → Q item) →
  ∀ item, item ∈ flat_map mounted_items out → Q item.
Proof.
  intros Hg. revert out.
  induction Hg as [|x e xs es Hx _ IH]; simpl; intros out Hout HQ item Hitem.
  - injection Hout as <-. by apply elem_of_nil in Hitem.
  - apply bind_Ok in Hout as (fs & Hfs & Hout).
    apply bind_Ok in Hout as (gs & Hgs & Hout).
    injection Hout as <-.
    apply elem_of_mounted_app in Hitem as [Hitem|Hitem].
    + apply (HQ x e fs); [by left | done..].
    + apply (IH gs Hgs); [|done].
      intros x' e' fs' Hx'. apply HQ. by right.
Qed.

Section Mounted.
Context `{Hooks}.

Lemma render_wrapped_node_inv fuel ctx tag attrs values n out :
  render fuel ctx (EHost tag attrs [EProvider values [ENode n]]) = Ok out →
  out = [FHost tag attrs [FNode n]].
Proof.
  destruct fuel as [|[|[|fuel]]]; try discriminate.
  rewrite (render_wrapped_node fuel). by intros [= <-].
Qed.

Lemma mounted_MenuItemInner fuel ctx item out :
  render fuel ctx (EMenuItemInner item) = Ok out →
  flat_map mounted_items out = [item].
Proof.
  destruct fuel as [|fuel]; [discriminate|]. simpl.
  destruct (ctx_menuState ctx) as [state|]; [|discriminate].
  intros Hout. apply bind_Ok in Hout as (o & Ho & Hout).
  injection Hout as <-.
  apply render_wrapped_node_inv in Ho as ->. reflexivity.
Qed.

Lemma mounted_section_child fuel ctx headingProps headingRef child el out :
  MenuSection_child headingProps headingRef child = Ok el →
  render fuel ctx el = Ok out →
  ∀ item, item ∈ flat_map mounted_items out → item = child.
Proof.
  unfold MenuSection_child.
  destruct (String.eqb (type child) "header").
  { intros [= <-] Hout item.
    destruct fuel as [|[|fuel]]; try discriminate.
    injection Hout as <-. simpl. by intros ?%elem_of_nil. }
  destruct (String.eqb (type child) "item"); [|discriminate].
  intros [= <-] Hout item.
  rewrite (mounted_MenuItemInner _ _ _ _ Hout).
  by intros ->%list_elem_of_singleton.
Qed.

Lemma mounted_MenuSection fuel ctx state p out :
  ctx_menuState ctx = Some state →
  render fuel ctx (EMenuSection p) = Ok out →
  ∀ item, item ∈ flat_map mounted_items out →
    item ∈ getChildren (collection state) (key (section p)).
Proof.
  intros Hstate Hout.
  destruct fuel as [|fuel]; [discriminate|].
  rewrite (render_EMenuSection _ _ state) in Hout by done.
  apply bind_Ok in Hout as (el & Hel & Hout).
  apply bind_Ok in Hout as (o & Ho & Hout).
  injection Hout as <-.
  unfold MenuSection, useCachedChildren in Hel.
  destruct (useSlot (section p)) as [headingRef heading].
  apply bind_Ok in Hel as (children & Hch & Hel).
  injection Hel as <-.
  apply for_of_Ok_inv in Hch.
  destruct fuel as [|fuel]; [discriminate|].
  rewrite render_EHost in Ho.
  apply bind_Ok in Ho as (kids & Hkids & Ho).
  injection Ho as <-.
  intros item Hitem. simpl in Hitem. rewrite !app_nil_r in Hitem.
  revert item Hitem.
  apply (mounted_children _ _ _ _ _ _ Hch Hkids).
  intros x e fs Hx He Hfs item' Hitem'.
  by rewrite (mounted_section_child _ _ _ _ _ _ _ He Hfs item' Hitem').
Qed.

Lemma mounted_menu_child fuel ctx state n el out :
  ctx_menuState ctx = Some state →
  MenuInner_child n = Ok el →
  render fuel ctx el = Ok out →
  ∀ item, item ∈ flat_map mounted_items out →
    item = n ∨
    (type n = "section" ∧ item ∈ getChildren (collection state) (key n)).
Proof.
  intros Hstate. unfold MenuInner_child.
  destruct (String.eqb_spec (type n) "section") as [Ht|_].
  { intros [= <-] Hout item Hitem. right. split; [done|].
    by apply (mounted_MenuSection _ _ _ _ _ Hstate Hout). }
  destruct (String.eqb (type n) "separator").
  { intros [= <-] Hout item.
    destruct fuel as [|fuel]; [discriminate|].
    injection Hout as <-. simpl. by intros ?%elem_of_nil. }
  destruct (String.eqb (type n) "item"); [|discriminate].
  intros [= <-] Hout item.
  rewrite (mounted_MenuItemInner _ _ _ _ Hout).
  intros ->%list_elem_of_singleton. by left.
Qed.

Lemma mounted_Menu (fuel : nat) (ctx : Context)
    (props props' : Object) (ref ref' : Value) (portal : option ReactPortal)
    (c : BaseCollection) (out : list Fiber) :
  useContextProps props ref (ctx_menu ctx) = (props', ref') →
  useCollection props' = (portal, c) →
  render fuel ctx (EMenu props ref) = Ok out →
  ∀ item, item ∈ flat_map mounted_items out →
    member (collection (useTreeState (<["children":=VUndefined]> props') c)) item.
Proof.
  intros Hprops Hcoll Hout.
  destruct fuel as [|fuel]; [discriminate|].
  rewrite render_EMenu in Hout.
  apply bind_Ok in Hout as (o & Ho & Hout). injection Hout as <-.
  unfold Menu in Ho. rewrite Hprops, Hcoll in Ho.
  destruct fuel as [|fuel]; [discriminate|].
  rewrite render_EFragment in Ho. cbn [render_children] in Ho.
  apply bind_Ok in Ho as (inner & Hinner & Ho).
  apply bind_Ok in Ho as (rest & Hrest & Ho). injection Ho as <-.
  apply bind_Ok in Hrest as (pf & Hpf & Hrest). injection Hrest as <-.
  assert (Hportal : flat_map mounted_items pf = []).
  { destruct fuel as [|fuel]; [discriminate|].
    destruct portal; injection Hpf as <-; reflexivity. }
  intros item Hitem. simpl in Hitem.
  rewrite !app_nil_r, flat_map_app, Hportal, app_nil_r in Hitem.
  revert item Hitem.
  destruct (0 <? size c).
  2:{ destruct fuel as [|fuel]; [discriminate|].
      injection Hinner as <-. by intros item ?%elem_of_nil. }
  destruct fuel as [|fuel]; [discriminate|].
  rewrite render_EMenuInner in Hinner.
  apply bind_Ok in Hinner as (el & Hel & Hinner).
  apply bind_Ok in Hinner as (o & Ho & Hinner). injection Hinner as <-.
  unfold MenuInner, useCachedChildren in Hel.
  apply bind_Ok in Hel as (children & Hch & Hel). injection Hel as <-.
  apply for_of_Ok_inv in Hch.
  destruct fuel as [|fuel]; [discriminate|].
  rewrite render_EHost in Ho. cbn [render_children] in Ho.
  apply bind_Ok in Ho as (kids & Hkids & Ho). injection Ho as <-.
  apply bind_Ok in Hkids as (k & Hk & Hkids). injection Hkids as <-.
  destruct fuel as [|fuel]; [discriminate|].
  rewrite render_EProvider in Hk.
  intros item Hitem. simpl in Hitem. rewrite !app_nil_r in Hitem.
  revert item Hitem.
  apply (mounted_children _ _ _ _ _ _ Hch Hk).
  intros n e fs Hn He Hfs item' Hitem'.
  assert (Hstate : ctx_menuState
            (provide [MenuStateContext
                        (useTreeState (<["children":=VUndefined]> props') c);
                      SeparatorContext {[ "elementType" := VStr "div" ]}] ctx)
          = Some (useTreeState (<["children":=VUndefined]> props') c))
    by reflexivity.
  destruct (mounted_menu_child _ _ _ _ _ _ Hstate He Hfs item' Hitem')
    as [->|[Ht Hin]].
  - by left.
  - right. by exists n.
Qed.

(** C9.  The renderers of [MenuInner] and of [MenuSection] construct a
    [MenuItemInner] element only for the node they are handed, and in every
    rendered menu tree a [MenuItemInner] is mounted only for a node of the
    collection of the tree state: a top-level node of [state.collection],
    or a node that [state.collection.getChildren(section.key)] yields for a
    top-level section. *)
Theorem MenuItemInner_only_for_collection_nodes :
  (∀ n item, MenuInner_child n = Ok (EMenuItemInner item) → item = n) ∧
  (∀ headingProps headingRef n item,
     MenuSection_child headingProps headingRef n = Ok (EMenuItemInner item) →
     item = n) ∧
  (∀ fuel ctx props props' ref ref' portal c out,
     useContextProps props ref (ctx_menu ctx) = (props', ref') →
     useCollection props' = (portal, c) →
     render fuel ctx (EMenu props ref) = Ok out →
     ∀ item, item ∈ flat_map mounted_items out →
       member (collection (useTreeState (<["children":=VUndefined]> props') c))
         item).
Proof.
  split_and!.
  - intros n item. unfold MenuInner_child.
    repeat (destruct (String.eqb _ _); [intros [= <-] || discriminate|]);
      try done; discriminate.
  - intros headingProps headingRef n item. unfold MenuSection_child.
    repeat (destruct (String.eqb _ _); [intros [= <-] || discriminate|]);
      try done; discriminate.
  - apply mounted_Menu.
Qed.

End Mounted.

Lemma MenuItemInner_only_for_collection_nodes_witness :
  member
    (collection (useTreeState (H:=sample_hooks (Some 7) sample_collection)
                   (<["children":=VUndefined]> ∅) sample_collection))
    (sample_node "item" (KNum 2) ∅).
Proof.
  eapply (proj2 (proj2 (MenuItemInner_only_for_collection_nodes
                          (H:=sample_hooks (Some 7) sample_collection)))
            11 no_context ∅ ∅ VNull VNull (Some 7) sample_collection).
  - reflexivity.
  - reflexivity.
  - reflexivity.
  - simpl. left.
Defined.

(** * Further properties *)

(** ** MenuTrigger: what a resize changes and what it leaves *)

(** X1.  While the ref holds no element, [onResize] and a resize event
    change nothing: the width published stays the one last set (the
    guard [if (ref.current)]). *)
Theorem resize_detached `{Hooks} (props : Object) (children : list Element)
    (i : MenuTriggerInstance) (widths : list N) :
  ref_current i = None →
  onResize i = i ∧
  resizes i widths = i ∧
  MenuTrigger props children (resizes i widths) = MenuTrigger props children i.
Proof.
  intros Hi.
  assert (Hon : onResize i = i) by (unfold onResize; by rewrite Hi).
  assert (Hall : resizes i widths = i).
  { induction widths as [|w ws IH]; [done|].
    unfold resizes in *. simpl.
    replace (resize i w) with i; [done|].
    unfold resize, onResize, measure. simpl. rewrite Hi. simpl.
    by destruct i; simpl in *; subst. }
  by rewrite Hall.
Qed.

Lemma resize_detached_witness :
  buttonWidth (resizes {| ref := VOpaque 1; ref_current := None;
                          buttonWidth := Some "40px" |} [10; 20]%N)
  = Some "40px".
Proof.
  destruct (resize_detached (H:=sample_hooks None empty_collection) ∅ []
              {| ref := VOpaque 1; ref_current := None;
                 buttonWidth := Some "40px" |} [10; 20]%N eq_refl)
    as (_ & -> & _).
  reflexivity.
Defined.

(** X2.  On a mounted trigger the last resize alone decides the state:
    a sequence of resize events leaves the instance as its last event
    would, and repeating a resize changes nothing. *)
Theorem resize_last_wins (i : MenuTriggerInstance) (earlier : list N) (width : N) :
  is_Some (ref_current i) →
  resizes i (earlier ++ [width]) = resize i width ∧
  resize (resize i width) width = resize i width.
Proof.
  intros Hi.
  assert (Hone : ∀ j, is_Some (ref_current j) →
            resize j width
            = {| ref := ref j; ref_current := Some {| offsetWidth := width |};
                 buttonWidth := Some (px width) |}).
  { intros j [current Hj]. unfold resize, onResize, measure. simpl.
    rewrite Hj. reflexivity. }
  assert (Href : ∀ ws j, ref (resizes j ws) = ref j).
  { induction ws as [|w ws IH]; intros j; [done|].
    unfold resizes in *. simpl. rewrite IH.
    unfold resize, onResize, measure. simpl.
    by destruct (ref_current j). }
  split.
  - rewrite resizes_snoc, !Hone by (done || by apply resizes_attached).
    by rewrite Href.
  - rewrite (Hone i Hi). by rewrite Hone by (by eexists).
Qed.

Lemma resize_last_wins_witness :
  resizes sample_trigger ([120; 96] ++ [64])%N = resize sample_trigger 64%N.
Proof.
  apply (resize_last_wins sample_trigger [120; 96]%N 64%N). by eexists.
Defined.

(** X3.  A resize changes nothing of what [MenuTrigger] renders but the
    style of [PopoverContext]: the menu props and the overlay state it
    publishes, the trigger name, ref and placement of the popover, and the
    [PressResponder] with its children are the same before and after. *)
Theorem resize_changes_only_the_style `{Hooks} (props : Object)
    (children : list Element) (i : MenuTriggerInstance) (width : N) :
  ∃ menuProps state style style' responder,
    MenuTrigger props children i
    = EProvider
        [MenuContext menuProps; OverlayTriggerStateContext state;
         PopoverContext {| trigger := "MenuTrigger"; triggerRef := ref i;
                           placement := "bottom start"; popover_style := style |}]
        [responder] ∧
    MenuTrigger props children (resize i width)
    = EProvider
        [MenuContext menuProps; OverlayTriggerStateContext state;
         PopoverContext {| trigger := "MenuTrigger"; triggerRef := ref i;
                           placement := "bottom start"; popover_style := style' |}]
        [responder].
Proof.
  assert (Href : ref (resize i width) = ref i).
  { unfold resize, onResize, measure. simpl. by destruct (ref_current i). }
  unfold MenuTrigger. rewrite Href.
  eexists _, _, _, _, _. split; reflexivity.
Qed.

(** X4.  The [ref] and [isPressed] that [MenuTrigger] writes on the
    [PressResponder] win over the props [useMenuTrigger] returns:
    [isPressed] is the open state of the overlay and [ref] is the ref the
    popover is given as [triggerRef]; every other prop is the one of
    [menuTriggerProps]. *)
Theorem MenuTrigger_PressResponder `{Hooks} (props : Object)
    (children : list Element) (i : MenuTriggerInstance) :
  ∃ values attrs,
    MenuTrigger props children i
    = EProvider values [EExternal PressResponder attrs children] ∧
    attrs !! "isPressed" = Some (VBool (isOpen (useMenuTriggerState props))) ∧
    attrs !! "ref" = Some (ref i) ∧
    (triggerRef <$> ctx_popover (provide values no_context)) = Some (ref i) ∧
    (∀ k, k ≠ "ref" → k ≠ "isPressed" →
       attrs !! k
       = menuTriggerProps
           (useMenuTrigger (<["type":=VStr "menu"]> props)
              (useMenuTriggerState props) (ref i)) !! k).
Proof.
  eexists _, _. split; [reflexivity|].
  unfold attr, spread. split_and!.
  - by simplify_map_eq.
  - by simplify_map_eq.
  - reflexivity.
  - intros k Hr Hp. rewrite !lookup_insert_ne by done.
    by rewrite (right_id_L ∅ (∪)).
Qed.

Lemma MenuTrigger_PressResponder_witness :
  ∃ values attrs,
    MenuTrigger (H:=sample_hooks None empty_collection) ∅ [] sample_trigger
    = EProvider values [EExternal PressResponder attrs []] ∧
    attrs !! "isPressed" = Some (VBool true) ∧
    attrs !! "id" = None.
Proof.
  destruct (MenuTrigger_PressResponder (H:=sample_hooks None empty_collection)
              ∅ [] sample_trigger) as (values & attrs & HT & Hp & _ & _ & Hk).
  exists values, attrs. split_and!; [exact HT | exact Hp |].
  rewrite (Hk "id"); [reflexivity | discriminate | discriminate].
Defined.

Lemma bind_assoc {A B C} (r : Result A) (f : A → Result B) (g : B → Result C) :
  (r ≫= f) ≫= g = r ≫= (fun a => f a ≫= g).
Proof. by destruct r. Qed.

(** X5.  The children of a [MenuTrigger] render under the menu props of
    [useMenuTrigger] as [MenuContext] and under the popover value with the
    current width; the menu state of the surroundings is left as it is.
    A [Menu] among them is called with these menu props as its context. *)
Theorem MenuTrigger_publishes_menu_props `{Hooks} (fuel : nat) (ctx : Context)
    (props : Object) (children : list Element) (i : MenuTriggerInstance) :
  ∃ ctx' attrs,
    render (2 + fuel) ctx (MenuTrigger props children i)
    = (kids ← render_children (render fuel ctx') children;
       Ok [FExternal PressResponder attrs kids]) ∧
    ctx_menu ctx'
    = Some (menuProps (useMenuTrigger (<["type":=VStr "menu"]> props)
                         (useMenuTriggerState props) (ref i))) ∧
    ctx_menuState ctx' = ctx_menuState ctx ∧
    (popover_style <$> ctx_popover ctx')
    = Some {[ "--trigger-width" :=
                match buttonWidth i with Some w => VStr w | None => VNull end ]} ∧
    (∀ fuel' p r,
       render (S fuel') ctx' (EMenu p r)
       = (out ← render fuel' ctx'
                  (Menu (Some (menuProps
                                 (useMenuTrigger (<["type":=VStr "menu"]> props)
                                    (useMenuTriggerState props) (ref i)))) p r);
          Ok [FComponent IMenu out])).
Proof.
  eexists _, _. split.
  - change (2 + fuel) with (S (S fuel)).
    unfold MenuTrigger. rewrite render_EProvider. cbn [render_children].
    rewrite render_EExternal, bind_assoc. reflexivity.
  - split_and!; reflexivity.
Qed.

(** ** The attributes of the containers *)

Section Container_attributes.
Context `{Hooks}.

Lemma MenuInner_Ok_inv props c ref el :
  MenuInner props c ref = Ok el →
  ∃ children,
    for_of MenuInner_child (nodes c) = Ok children ∧
    el = EHost "div"
           (∅ |> spread (filterDOMProps props)
              |> spread (useMenu props
                           (useTreeState (<["children":=VUndefined]> props) c) ref)
              |> attr "ref" ref
              |> attr "slot" (logical_or (get props "slot") VUndefined)
              |> attr "onScroll" (get props "onScroll")
              |> attr "style" (get props "style")
              |> attr "className"
                   (nullish (get props "className") (VStr "react-aria-Menu")))
           [EProvider
              [MenuStateContext (useTreeState (<["children":=VUndefined]> props) c);
               SeparatorContext {[ "elementType" := VStr "div" ]}]
              children].
Proof.
  unfold MenuInner, useCachedChildren. intros Hel.
  apply bind_Ok in Hel as (children & Hch & Hel). injection Hel as <-.
  by exists children.
Qed.

(** X6.  On the menu container the five attributes [MenuInner] writes
    ([ref], [slot], [onScroll], [style], [className]) win over the props of
    [useMenu] and the filtered DOM props; for every other name the prop of
    [useMenu] wins over the filtered DOM prop. *)
Theorem MenuInner_container_attributes (props : Object) (c : BaseCollection)
    (ref : Value) (el : Element) :
  MenuInner props c ref = Ok el →
  tag_of el = Some "div" ∧
  attrs_of el !! "ref" = Some ref ∧
  attrs_of el !! "slot" = Some (logical_or (get props "slot") VUndefined) ∧
  attrs_of el !! "onScroll" = Some (get props "onScroll") ∧
  attrs_of el !! "style" = Some (get props "style") ∧
  attrs_of el !! "className"
    = Some (nullish (get props "className") (VStr "react-aria-Menu")) ∧
  (∀ k, k ∉ ["ref"; "slot"; "onScroll"; "style"; "className"] →
     attrs_of el !! k
     = (useMenu props (useTreeState (<["children":=VUndefined]> props) c) ref
        ∪ filterDOMProps props) !! k).
Proof.
  intros (children & _ & ->)%MenuInner_Ok_inv. simpl. unfold attr, spread.
  split_and!; try by simplify_map_eq.
  intros k Hk. rewrite !not_elem_of_cons in Hk.
  destruct Hk as (?&?&?&?&?&_).
  rewrite !lookup_insert_ne by done.
  by rewrite (right_id_L ∅ (∪)).
Qed.

(** X7.  The menu container always has a class name: it is
    ['react-aria-Menu'] exactly when [props.className] is [null] or
    [undefined], and [props.className] otherwise, also when that is the
    empty string.  Its [slot] is written exactly when [props.slot] is
    truthy. *)
Theorem MenuInner_className_and_slot (props : Object) (c : BaseCollection)
    (ref : Value) (el : Element) :
  MenuInner props c ref = Ok el →
  is_Some (dom_attr (attrs_of el) "className") ∧
  (get props "className" = VUndefined ∨ get props "className" = VNull →
     dom_attr (attrs_of el) "className" = Some (VStr "react-aria-Menu")) ∧
  (get props "className" ≠ VUndefined → get props "className" ≠ VNull →
     dom_attr (attrs_of el) "className" = Some (get props "className")) ∧
  dom_attr (attrs_of el) "slot"
    = (if truthy (get props "slot") then Some (get props "slot") else None).
Proof.
  intros (children & _ & ->)%MenuInner_Ok_inv. simpl. unfold attr, spread, dom_attr.
  rewrite lookup_insert_eq.
  do 3 rewrite (lookup_insert_ne _ _ "slot") by done.
  rewrite lookup_insert_eq. unfold logical_or.
  split_and!.
  - destruct (get props "className"); simpl; by eexists.
  - by intros [-> | ->].
  - destruct (get props "className"); intros Hu Hn; simpl; congruence.
  - destruct (get props "slot") as [| |[]|n|s|]; simpl; try done.
    + by destruct (N.eqb n 0).
    + by destruct (String.eqb s "").
Qed.

End Container_attributes.

Lemma MenuInner_container_attributes_witness :
  ∃ el, MenuInner (H:=sample_hooks None sample_collection) ∅ sample_collection VNull
        = Ok el ∧
        attrs_of el !! "role" = Some (VStr "menu").
Proof.
  eexists. split; [reflexivity|].
  rewrite (proj2 (proj2 (proj2 (proj2 (proj2 (proj2
    (MenuInner_container_attributes (H:=sample_hooks None sample_collection)
       ∅ sample_collection VNull _ eq_refl)))))) "role").
  - reflexivity.
  - rewrite !not_elem_of_cons. split_and!; try discriminate. apply not_elem_of_nil.
Defined.

Lemma MenuInner_className_and_slot_witness :
  ∃ el, MenuInner (H:=sample_hooks None sample_collection)
          {[ "className" := VStr "" ]} sample_collection VNull
        = Ok el ∧
        dom_attr (attrs_of el) "className" = Some (VStr "").
Proof.
  eexists. split; [reflexivity|].
  destruct (MenuInner_className_and_slot (H:=sample_hooks None sample_collection)
              {[ "className" := VStr "" ]} sample_collection VNull _ eq_refl)
    as (_ & _ & Hc & _).
  rewrite Hc; [reflexivity | discriminate | discriminate].
Defined.

Section Section_attributes.
Context `{Hooks}.

Lemma MenuSection_Ok_inv state p el :
  MenuSection state p = Ok el →
  ∃ children,
    for_of (MenuSection_child
              (headingProps
                 (useMenuSection (useSlot (section p)).2
                    (nullish (aria_label (section p)) VUndefined)))
              (useSlot (section p)).1)
      (getChildren (collection state) (key (section p))) = Ok children ∧
    el = EHost "section"
           (∅ |> spread (filterDOMProps (otherProps p))
              |> spread (groupProps
                           (useMenuSection (useSlot (section p)).2
                              (nullish (aria_label (section p)) VUndefined)))
              |> attr "className"
                   (logical_or
                      (logical_or (section_className p)
                         (get (props (section p)) "className"))
                      (VStr "react-aria-Section"))
              |> attr "style"
                   (logical_or (section_style p) (get (props (section p)) "style"))
              |> attr "ref" (get (props (section p)) "ref"))
           children.
Proof.
  unfold MenuSection, useCachedChildren.
  destruct (useSlot (section p)) as [headingRef heading]. simpl.
  intros Hel. apply bind_Ok in Hel as (children & Hch & Hel).
  injection Hel as <-. by exists children.
Qed.

(** X8.  A section always has a truthy class name: the [className] given
    to [MenuSection] when that is truthy, else the [className] of the
    section node's props when that is truthy, else ['react-aria-Section'];
    an empty string counts as missing.  Its [style] falls back the same
    way, its [ref] is the ref of the node's props, and for every other
    name the prop of [useMenuSection]'s group wins over the filtered DOM
    prop. *)
Theorem MenuSection_attributes (state : TreeState) (p : MenuSectionProps)
    (el : Element) :
  MenuSection state p = Ok el →
  tag_of el = Some "section" ∧
  (∃ v, attrs_of el !! "className" = Some v ∧ truthy v = true ∧
        v = (if truthy (section_className p) then section_className p
             else if truthy (get (props (section p)) "className")
                  then get (props (section p)) "className"
                  else VStr "react-aria-Section")) ∧
  attrs_of el !! "style"
    = Some (if truthy (section_style p) then section_style p
            else get (props (section p)) "style") ∧
  attrs_of el !! "ref" = Some (get (props (section p)) "ref") ∧
  (∀ k, k ∉ ["className"; "style"; "ref"] →
     attrs_of el !! k
     = (groupProps (useMenuSection (useSlot (section p)).2
                      (nullish (aria_label (section p)) VUndefined))
        ∪ filterDOMProps (otherProps p)) !! k).
Proof.
  intros (children & _ & ->)%MenuSection_Ok_inv. simpl. unfold attr, spread.
  split_and!; try by simplify_map_eq.
  - eexists. split; [by simplify_map_eq|]. unfold logical_or.
    destruct (truthy (section_className p)) eqn:Hown; simpl.
    + rewrite Hown. by rewrite Hown.
    + destruct (truthy (get (props (section p)) "className")) eqn:Hnode;
        by rewrite ?Hnode.
  - intros k Hk. rewrite !not_elem_of_cons in Hk.
    destruct Hk as (?&?&?&_).
    rewrite !lookup_insert_ne by done.
    by rewrite (right_id_L ∅ (∪)).
Qed.


(** X10.  On the element of an item the [ref] is the object ref of the
    ref of the node's props; for every name other than [ref] and the seven
    [data-] attributes, the prop of [useRenderProps] wins over the merged
    props of [useMenuItem] and [useFocusRing].  The element has one child:
    the provider of the label, description and keyboard props around the
    children [useRenderProps] returns. *)
Theorem MenuItemInner_other_attributes (state : TreeState) (item : Node) :
  attrs_of (MenuItemInner state item) !! "ref"
    = Some (useObjectRef (get (props item) "ref")) ∧
  (∀ k, k ∉ ["ref"; "data-disabled"; "data-hovered"; "data-focused";
             "data-focus-visible"; "data-pressed"; "data-selected";
             "data-selection-mode"] →
     attrs_of (MenuItemInner state item) !! k
     = (render_attrs (useRenderProps (MenuItemInner_options state item))
        ∪ mergeProps
            (menuItemProps (useMenuItem (key item) state
                              (useObjectRef (get (props item) "ref"))))
            (focusProps (useFocusRing item))) !! k) ∧
  (∃ tag attrs,
     MenuItemInner state item
     = EHost tag attrs
         [EProvider
            [TextContext
               (labelProps (useMenuItem (key item) state
                              (useObjectRef (get (props item) "ref"))))
               (descriptionProps (useMenuItem (key item) state
                                    (useObjectRef (get (props item) "ref"))));
             KeyboardContext
               (keyboardShortcutProps (useMenuItem (key item) state
                                         (useObjectRef (get (props item) "ref"))))]
            [ENode (children (useRenderProps (MenuItemInner_options state item)))]]).
Proof.
  split_and!.
  - simpl. unfold attr. by simplify_map_eq.
  - intros k Hk. rewrite !not_elem_of_cons in Hk.
    destruct Hk as (?&?&?&?&?&?&?&?&_).
    simpl. unfold attr, spread.
    rewrite !lookup_insert_ne by done.
    by rewrite (right_id_L ∅ (∪)).
  - by eexists _, _.
Qed.

(** X11.  The children of the element of an item are those
    [useRenderProps] returns for this argument: the props of the item with
    [id] cleared; in place of the item's own [children],
    [defaultClassName] and [values] props, the rendered content of the
    node, ['react-aria-MenuItem'] and the values object, which carries the
    selection mode and behavior of the tree state; every other prop of the
    item as it is. *)
Theorem MenuItemInner_render_options (state : TreeState) (item : Node) :
  ∃ options tag attrs contexts,
    MenuItemInner state item
    = EHost tag attrs
        [EProvider contexts [ENode (children (useRenderProps options))]] ∧
    spread_props options !! "id" = Some VUndefined ∧
    Forall (fun k => spread_props options !! k = None)
      ["children"; "defaultClassName"; "values"] ∧
    (∀ k, k ∉ ["id"; "children"; "defaultClassName"; "values"] →
       spread_props options !! k = props item !! k) ∧
    opt_children options = rendered item ∧
    defaultClassName options = "react-aria-MenuItem" ∧
    rp_selectionMode (values options) = selectionMode (selectionManager state) ∧
    rp_selectionBehavior (values options)
      = selectionBehavior (selectionManager state).
Proof.
  exists (MenuItemInner_options state item). eexists _, _, _.
  split; [reflexivity|]. simpl.
  split_and!; try reflexivity.
  - apply lookup_insert_eq.
  - repeat constructor; rewrite lookup_insert_ne by done;
      rewrite ?lookup_delete_ne by done; apply lookup_delete_eq.
  - intros k Hk. rewrite !not_elem_of_cons in Hk. destruct Hk as (?&?&?&?&_).
    rewrite lookup_insert_ne by done. by rewrite !lookup_delete_ne by done.
Qed.

End Section_attributes.

Lemma MenuSection_attributes_witness :
  ∃ el, MenuSection (H:=sample_hooks None sample_collection)
          (sample_state sample_collection none)
          {| section := sample_node "section" (KStr "s") {[ "className" := VStr "" ]};
             section_className := VUndefined;
             section_style := VUndefined;
             otherProps := ∅ |}
        = Ok el ∧
        attrs_of el !! "className" = Some (VStr "react-aria-Section") ∧
        attrs_of el !! "role" = Some (VStr "group").
Proof.
  eexists. split; [reflexivity|].
  destruct (MenuSection_attributes (H:=sample_hooks None sample_collection)
              (sample_state sample_collection none)
              {| section := sample_node "section" (KStr "s")
                              {[ "className" := VStr "" ]};
                 section_className := VUndefined;
                 section_style := VUndefined;
                 otherProps := ∅ |} _ eq_refl)
    as (_ & (v & Hv & _ & ->) & _ & _ & Hk).
  split; [exact Hv|].
  rewrite (Hk "role"); [reflexivity|].
  rewrite !not_elem_of_cons. split_and!; try discriminate. apply not_elem_of_nil.
Defined.


Lemma MenuItemInner_other_attributes_witness :
  attrs_of (MenuItemInner (H:=sample_hooks None empty_collection)
              (sample_state empty_collection none) link_item) !! "className"
  = Some (VStr "react-aria-MenuItem").
Proof.
  rewrite (proj1 (proj2
    (MenuItemInner_other_attributes (H:=sample_hooks None empty_collection)
       (sample_state empty_collection none) link_item)) "className").
  - reflexivity.
  - rewrite !not_elem_of_cons. split_and!; try discriminate. apply not_elem_of_nil.
Defined.

Lemma MenuItemInner_render_options_witness :
  ∃ options,
    spread_props options !! "href" = Some (VStr "/a") ∧
    spread_props options !! "children" = None ∧
    ∃ tag attrs contexts,
      MenuItemInner (H:=sample_hooks None empty_collection)
        (sample_state empty_collection none)
        (sample_node "item" (KNum 4)
           {[ "href" := VStr "/a"; "children" := VOpaque 3; "id" := VStr "x" ]})
      = EHost tag attrs
          [EProvider contexts
             [ENode (children
                       (@useRenderProps (sample_hooks None empty_collection)
                          options))]].
Proof.
  destruct (MenuItemInner_render_options (H:=sample_hooks None empty_collection)
              (sample_state empty_collection none)
              (sample_node "item" (KNum 4)
                 {[ "href" := VStr "/a"; "children" := VOpaque 3; "id" := VStr "x" ]}))
    as (options & tag & attrs & contexts & Hel & _ & Hgone & Hk & _).
  exists options. split_and!.
  - rewrite (Hk "href"); [reflexivity|].
    rewrite !not_elem_of_cons. split_and!; try discriminate. apply not_elem_of_nil.
  - by inversion Hgone.
  - by exists tag, attrs, contexts.
Defined.

(** ** Sections, and the items that are mounted *)

(** Children that each render to one node, read back from a finished
    render. *)
Lemma render_children_each_inv {A} (g : A → Result Element)
    (render1 : Element → Result (list Fiber)) (P : A → Fiber → Prop)
    (xs : list A) (es : list Element) (out : list Fiber) :
  Forall2 (fun x e => g x = Ok e) xs es →
  render_children render1 es = Ok out →
  (∀ x e fs, x ∈ xs → g x = Ok e → render1 e = Ok fs → ∃ f, fs = [f] ∧ P x f) →
  Forall2 P xs out.
Proof.
  intros Hg. revert out.
  induction Hg as [|x e xs es Hx _ IH]; simpl; intros out Hout HP.
  - injection Hout as <-. constructor.
  - apply bind_Ok in Hout as (fs & Hfs & Hout).
    apply bind_Ok in Hout as (gs & Hgs & Hout).
    injection Hout as <-.
    destruct (HP x e fs (list_elem_of_here x xs) Hx Hfs) as (f & -> & Hf).
    simpl. constructor; [done|].
    apply IH; [done|]. intros x' e' fs' Hx'. apply HP. by right.
Qed.

Lemma mounted_children_eq {A} (g : A → Result Element)
    (render1 : Element → Result (list Fiber)) (h : A → list Node)
    (xs : list A) (es : list Element) (out : list Fiber) :
  Forall2 (fun x e => g x = Ok e) xs es →
  render_children render1 es = Ok out →
  (∀ x e fs, g x = Ok e → render1 e = Ok fs → flat_map mounted_items fs = h x) →
  flat_map mounted_items out = flat_map h xs.
Proof.
  intros Hg. revert out.
  induction Hg as [|x e xs es Hx _ IH]; simpl; intros out Hout Hh.
  - by injection Hout as <-.
  - apply bind_Ok in Hout as (fs & Hfs & Hout).
    apply bind_Ok in Hout as (gs & Hgs & Hout).
    injection Hout as <-.
    rewrite flat_map_app, (Hh x e fs Hx Hfs). f_equal. by apply IH.
Qed.

Lemma flat_map_singleton_filter {A} (p : A → bool) (l : list A) :
  flat_map (fun x => if p x then [x] else []) l = List.filter p l.
Proof.
  induction l as [|x l IH]; simpl; [done|].
  rewrite IH. by destruct (p x).
Qed.

Section Sections.
Context `{Hooks}.

Lemma render_section_child_renders fuel ctx state (headingProps : Object)
    (headingRef : Value) (child : Node) (el : Element) :
  ctx_menuState ctx = Some state →
  MenuSection_child headingProps headingRef child = Ok el →
  ∃ f, render (4 + fuel) ctx el = Ok [f] ∧ renders_section_child child f.
Proof.
  intros Hstate. unfold MenuSection_child.
  destruct (String.eqb_spec (type child) "header") as [Ht|_].
  { intros [= <-]. eexists. split; [reflexivity|]. by split. }
  destruct (String.eqb_spec (type child) "item") as [Ht|_]; [|discriminate].
  intros [= <-].
  destruct (render_MenuItemInner_Ok fuel ctx state child Hstate)
    as (tag & attrs & n & Hout).
  eexists. split; [exact Hout|]. by split.
Qed.

(** X12.  A section whose children are headers and items renders to one
    [section] element that holds one rendering per child, in the order
    [getChildren] yields them: a [Header] around the content of a header,
    a [MenuItemInner] for an item. *)
Theorem MenuSection_renders_children (fuel : nat) (ctx : Context)
    (state : TreeState) (p : MenuSectionProps) :
  ctx_menuState ctx = Some state →
  Forall (fun child => type child ∈ section_types)
    (getChildren (collection state) (key (section p))) →
  ∃ attrs kids,
    render (6 + fuel) ctx (EMenuSection p)
    = Ok [FComponent (IMenuSection (section p)) [FHost "section" attrs kids]] ∧
    Forall2 renders_section_child
      (getChildren (collection state) (key (section p))) kids.
Proof.
  intros Hstate Hall.
  destruct (for_of_all_Ok
              (MenuSection_child
                 (headingProps (useMenuSection (useSlot (section p)).2
                                  (nullish (aria_label (section p)) VUndefined)))
                 (useSlot (section p)).1)
              (getChildren (collection state) (key (section p))))
    as (children & Hc & Hch).
  { apply (Forall_impl _ _ _ Hall).
    intros x. apply MenuSection_child_supported. }
  destruct (render_children_each _ (render (4 + fuel) ctx) renders_section_child
              _ _ Hch) as (kids & Hkids & Hr).
  { apply Forall_forall. intros x _ e Hx.
    by apply (render_section_child_renders fuel ctx state _ _ _ _ Hstate Hx). }
  change (6 + fuel) with (S (S (4 + fuel))).
  rewrite (render_EMenuSection _ _ state) by done.
  unfold MenuSection, useCachedChildren.
  destruct (useSlot (section p)) as [headingRef heading]. simpl fst in *. simpl snd in *.
  rewrite Hc. cbn [mbind Result_bind]. rewrite render_EHost, Hkids.
  cbn [mbind Result_bind]. eexists _, kids. split; [reflexivity | done].
Qed.

Lemma mounted_section_child_eq fuel ctx headingProps headingRef child el out :
  MenuSection_child headingProps headingRef child = Ok el →
  render fuel ctx el = Ok out →
  flat_map mounted_items out
  = if String.eqb (type child) "item" then [child] else [].
Proof.
  unfold MenuSection_child.
  destruct (String.eqb_spec (type child) "header") as [Ht|_].
  { intros [= <-] Hout. rewrite Ht.
    destruct fuel as [|[|fuel]]; try discriminate.
    by injection Hout as <-. }
  destruct (String.eqb (type child) "item"); [|discriminate].
  intros [= <-] Hout. by rewrite (mounted_MenuItemInner _ _ _ _ Hout).
Qed.

Lemma mounted_MenuSection_eq fuel ctx state p out :
  ctx_menuState ctx = Some state →
  render fuel ctx (EMenuSection p) = Ok out →
  flat_map mounted_items out
  = List.filter (fun child => String.eqb (type child) "item")
      (getChildren (collection state) (key (section p))).
Proof.
  intros Hstate Hout.
  destruct fuel as [|fuel]; [discriminate|].
  rewrite (render_EMenuSection _ _ state) in Hout by done.
  apply bind_Ok in Hout as (el & Hel & Hout).
  apply bind_Ok in Hout as (o & Ho & Hout).
  injection Hout as <-.
  apply MenuSection_Ok_inv in Hel as (children & Hch & ->).
  apply for_of_Ok_inv in Hch.
  destruct fuel as [|fuel]; [discriminate|].
  rewrite render_EHost in Ho.
  apply bind_Ok in Ho as (kids & Hkids & Ho).
  injection Ho as <-.
  simpl. rewrite !app_nil_r.
  rewrite <- flat_map_singleton_filter.
  apply (mounted_children_eq _ _ _ _ _ _ Hch Hkids).
  intros x e fs He Hfs. by apply (mounted_section_child_eq _ _ _ _ _ _ _ He Hfs).
Qed.

Lemma mounted_menu_child_eq fuel ctx state n el out :
  ctx_menuState ctx = Some state →
  MenuInner_child n = Ok el →
  render fuel ctx el = Ok out →
  flat_map mounted_items out
  = if String.eqb (type n) "section" then
      List.filter (fun child => String.eqb (type child) "item")
        (getChildren (collection state) (key n))
    else if String.eqb (type n) "item" then [n]
    else [].
Proof.
  intros Hstate. unfold MenuInner_child.
  destruct (String.eqb (type n) "section").
  { intros [= <-] Hout. by apply (mounted_MenuSection_eq _ _ _ _ _ Hstate Hout). }
  destruct (String.eqb_spec (type n) "separator") as [Ht|_].
  { intros [= <-] Hout. rewrite Ht.
    destruct fuel as [|fuel]; [discriminate|].
    by injection Hout as <-. }
  destruct (String.eqb (type n) "item"); [|discriminate].
  intros [= <-] Hout. by rewrite (mounted_MenuItemInner _ _ _ _ Hout).
Qed.

(** X13.  In a rendered menu a [MenuItemInner] is mounted for every item
    of the collection, once per occurrence and in document order: for the
    top-level items and for the items among the children of the top-level
    sections, and for nothing else.  With size zero none is mounted. *)
Theorem Menu_mounts_every_item (fuel : nat) (ctx : Context)
    (props props' : Object) (ref ref' : Value) (portal : option ReactPortal)
    (c : BaseCollection) (out : list Fiber) :
  useContextProps props ref (ctx_menu ctx) = (props', ref') →
  useCollection props' = (portal, c) →
  render fuel ctx (EMenu props ref) = Ok out →
  flat_map mounted_items out = if 0 <? size c then item_nodes c else [].
Proof.
  intros Hprops Hcoll Hout.
  destruct fuel as [|fuel]; [discriminate|].
  rewrite render_EMenu in Hout.
  apply bind_Ok in Hout as (o & Ho & Hout). injection Hout as <-.
  unfold Menu in Ho. rewrite Hprops, Hcoll in Ho.
  destruct fuel as [|fuel]; [discriminate|].
  rewrite render_EFragment in Ho. cbn [render_children] in Ho.
  apply bind_Ok in Ho as (inner & Hinner & Ho).
  apply bind_Ok in Ho as (rest & Hrest & Ho). injection Ho as <-.
  apply bind_Ok in Hrest as (pf & Hpf & Hrest). injection Hrest as <-.
  assert (Hportal : flat_map mounted_items pf = []).
  { destruct fuel as [|fuel]; [discriminate|].
    destruct portal; injection Hpf as <-; reflexivity. }
  simpl. rewrite !app_nil_r, flat_map_app, Hportal, app_nil_r.
  destruct (0 <? size c).
  2:{ destruct fuel as [|fuel]; [discriminate|]. by injection Hinner as <-. }
  destruct fuel as [|fuel]; [discriminate|].
  rewrite render_EMenuInner in Hinner.
  apply bind_Ok in Hinner as (el & Hel & Hinner).
  apply bind_Ok in Hinner as (o & Ho & Hinner). injection Hinner as <-.
  apply MenuInner_Ok_inv in Hel as (children & Hch & ->).
  apply for_of_Ok_inv in Hch.
  destruct fuel as [|fuel]; [discriminate|].
  rewrite render_EHost in Ho. cbn [render_children] in Ho.
  apply bind_Ok in Ho as (kids & Hkids & Ho). injection Ho as <-.
  apply bind_Ok in Hkids as (k & Hk & Hkids). injection Hkids as <-.
  destruct fuel as [|fuel]; [discriminate|].
  rewrite render_EProvider in Hk.
  simpl. rewrite !app_nil_r. unfold item_nodes.
  apply (mounted_children_eq _ _ _ _ _ _ Hch Hk).
  intros n e fs He Hfs.
  assert (Hstate : ctx_menuState
            (provide [MenuStateContext
                        (useTreeState (<["children":=VUndefined]> props') c);
                      SeparatorContext {[ "elementType" := VStr "div" ]}] ctx)
          = Some (useTreeState (<["children":=VUndefined]> props') c))
    by reflexivity.
  exact (mounted_menu_child_eq _ _ _ _ _ _ Hstate He Hfs).
Qed.

End Sections.

Lemma MenuSection_renders_children_witness :
  ∃ attrs kids,
    render (H:=sample_hooks None sample_collection) (6 + 0)
      {| ctx_menu := None;
         ctx_menuState := Some (sample_state sample_collection none);
         ctx_popover := None |}
      (EMenuSection {| section := sample_node "section" (KStr "s") ∅;
                       section_className := VUndefined;
                       section_style := VUndefined;
                       otherProps := ∅ |})
    = Ok [FComponent (IMenuSection (sample_node "section" (KStr "s") ∅))
            [FHost "section" attrs kids]] ∧
    length kids = 2.
Proof.
  destruct (MenuSection_renders_children (H:=sample_hooks None sample_collection) 0
              {| ctx_menu := None;
                 ctx_menuState := Some (sample_state sample_collection none);
                 ctx_popover := None |}
              (sample_state sample_collection none)
              {| section := sample_node "section" (KStr "s") ∅;
                 section_className := VUndefined;
                 section_style := VUndefined;
                 otherProps := ∅ |} eq_refl)
    as (attrs & kids & Hr & Hk).
  { unfold section_types. simpl. repeat constructor; set_solver. }
  exists attrs, kids. split; [exact Hr|].
  apply Forall2_length in Hk. by rewrite <- Hk.
Defined.

Lemma Menu_mounts_every_item_witness :
  ∃ out,
    render (H:=sample_hooks (Some 7) sample_collection) 11 no_context (EMenu ∅ VNull)
    = Ok out ∧
    flat_map mounted_items out
    = [sample_node "item" (KNum 2) ∅;
       sample_node "item" (KNum 1) {[ "href" := VStr "/a" ]}].
Proof.
  eexists. split; [reflexivity|].
  rewrite (Menu_mounts_every_item (H:=sample_hooks (Some 7) sample_collection)
             11 no_context ∅ ∅ VNull VNull (Some 7) sample_collection _
             eq_refl eq_refl eq_refl).
  reflexivity.
Defined.

(** ** When a menu renders *)

Section Renders_iff.
Context `{Hooks}.

Lemma MenuInner_child_Ok_type (n : Node) (el : Element) :
  MenuInner_child n = Ok el → type n ∈ menu_types.
Proof.
  intros Hel. destruct (decide (type n ∈ menu_types)) as [|Hn]; [done|].
  rewrite (MenuInner_child_unsupported n Hn) in Hel. discriminate.
Qed.

Lemma MenuSection_child_Ok_type headingProps headingRef (child : Node) (el : Element) :
  MenuSection_child headingProps headingRef child = Ok el →
  type child ∈ section_types.
Proof.
  intros Hel. destruct (decide (type child ∈ section_types)) as [|Hn]; [done|].
  rewrite (MenuSection_child_unsupported _ _ child Hn) in Hel. discriminate.
Qed.

Lemma render_menu_child_inv fuel ctx state n el out :
  ctx_menuState ctx = Some state →
  MenuInner_child n = Ok el →
  render fuel ctx el = Ok out →
  ∃ f, out = [f] ∧ renders_node n f ∧
       (type n = "section" →
        Forall (fun child => type child ∈ section_types)
          (getChildren (collection state) (key n))).
Proof.
  intros Hstate. unfold MenuInner_child.
  destruct (String.eqb_spec (type n) "section") as [Ht|Hns].
  { intros [= <-] Hout.
    destruct fuel as [|fuel]; [discriminate|].
    rewrite (render_EMenuSection _ _ state) in Hout by done.
    apply bind_Ok in Hout as (el & Hel & Hout).
    apply bind_Ok in Hout as (o & Ho & Hout).
    injection Hout as <-.
    apply MenuSection_Ok_inv in Hel as (children & Hch & _).
    apply for_of_Ok_inv in Hch.
    eexists. split_and!; [reflexivity | by split |].
    intros _. simpl in Hch.
    induction Hch as [|x e xs es Hx _ IH]; constructor; [|done].
    by apply MenuSection_child_Ok_type in Hx. }
  destruct (String.eqb_spec (type n) "separator") as [Ht|_].
  { intros [= <-] Hout.
    destruct fuel as [|fuel]; [discriminate|].
    injection Hout as <-.
    eexists. split_and!; [reflexivity | | done].
    split; [done|]. unfold spread. apply (right_id_L ∅ (∪)). }
  destruct (String.eqb_spec (type n) "item") as [Ht|_]; [|discriminate].
  intros [= <-] Hout.
  destruct fuel as [|fuel]; [discriminate|].
  rewrite (render_EMenuItemInner _ _ state) in Hout by done.
  apply bind_Ok in Hout as (o & Ho & Hout).
  injection Hout as <-.
  eexists. split_and!; [reflexivity | by split | done].
Qed.

Lemma render_Menu_supported (fuel : nat) (ctx : Context)
    (props props' : Object) (ref ref' : Value) (portal : option ReactPortal)
    (c : BaseCollection) :
  useContextProps props ref (ctx_menu ctx) = (props', ref') →
  useCollection props' = (portal, c) →
  (0 <? size c) = true →
  supported c →
  one_container c portal (render (11 + fuel) ctx (EMenu props ref)).
Proof.
  intros Hprops Hcoll Hsize Hsup.
  destruct (for_of_all_Ok MenuInner_child (nodes c)) as (children & Hc & Hch).
  { eapply Forall_impl; [exact Hsup|].
    intros n [Hn _]. by apply MenuInner_child_supported. }
  destruct (render_menu_children_Ok fuel
              (provide [MenuStateContext
                          (useTreeState (<["children":=VUndefined]> props') c);
                        SeparatorContext {[ "elementType" := VStr "div" ]}] ctx)
              (useTreeState (<["children":=VUndefined]> props') c)
              (nodes c) children)
    as (kids & Hkids & Hrender); [done | done | |].
  { eapply Forall_impl; [exact Hsup|]. by intros n [_ Hn]. }
  unfold one_container.
  change (11 + fuel) with (S (S (S (S (S (6 + fuel)))))).
  rewrite render_EMenu. unfold Menu. rewrite Hprops, Hcoll, Hsize.
  rewrite render_EFragment. cbn [render_children].
  rewrite render_EMenuInner, render_portal.
  unfold MenuInner, useCachedChildren.
  change (nodes (collection (useTreeState (<["children":=VUndefined]> props') c)))
    with (nodes c).
  rewrite Hc. cbn [mbind Result_bind].
  rewrite render_EHost. cbn [render_children].
  rewrite render_EProvider, Hkids. cbn [mbind Result_bind].
  rewrite !app_nil_r.
  eexists _, kids. split; [reflexivity | done].
Qed.

Lemma render_Menu_Ok_inv (fuel : nat) (ctx : Context)
    (props props' : Object) (ref ref' : Value) (portal : option ReactPortal)
    (c : BaseCollection) (out : list Fiber) :
  useContextProps props ref (ctx_menu ctx) = (props', ref') →
  useCollection props' = (portal, c) →
  (0 <? size c) = true →
  render fuel ctx (EMenu props ref) = Ok out →
  supported c ∧ one_container c portal (Ok out).
Proof.
  intros Hprops Hcoll Hsize Hout.
  destruct fuel as [|fuel]; [discriminate|].
  rewrite render_EMenu in Hout.
  apply bind_Ok in Hout as (o & Ho & Hout). injection Hout as <-.
  unfold Menu in Ho. rewrite Hprops, Hcoll, Hsize in Ho.
  destruct fuel as [|fuel]; [discriminate|].
  rewrite render_EFragment in Ho. cbn [render_children] in Ho.
  apply bind_Ok in Ho as (inner & Hinner & Ho).
  apply bind_Ok in Ho as (rest & Hrest & Ho). injection Ho as <-.
  apply bind_Ok in Hrest as (pf & Hpf & Hrest). injection Hrest as <-.
  destruct fuel as [|fuel]; [discriminate|].
  rewrite render_portal in Hpf. injection Hpf as <-.
  rewrite render_EMenuInner in Hinner.
  apply bind_Ok in Hinner as (el & Hel & Hinner).
  apply bind_Ok in Hinner as (o & Ho & Hinner). injection Hinner as <-.
  apply MenuInner_Ok_inv in Hel as (children & Hch & ->).
  apply for_of_Ok_inv in Hch.
  destruct fuel as [|fuel]; [discriminate|].
  rewrite render_EHost in Ho. cbn [render_children] in Ho.
  apply bind_Ok in Ho as (kids & Hkids & Ho). injection Ho as <-.
  apply bind_Ok in Hkids as (k & Hk & Hkids). injection Hkids as <-.
  destruct fuel as [|fuel]; [discriminate|].
  rewrite render_EProvider in Hk.
  assert (Hstate : ctx_menuState
            (provide [MenuStateContext
                        (useTreeState (<["children":=VUndefined]> props') c);
                      SeparatorContext {[ "elementType" := VStr "div" ]}] ctx)
          = Some (useTreeState (<["children":=VUndefined]> props') c))
    by reflexivity.
  assert (Hall : Forall2
            (fun n f => renders_node n f ∧ type n ∈ menu_types ∧
               (type n = "section" →
                Forall (fun child => type child ∈ section_types)
                  (getChildren c (key n))))
            (nodes c) k).
  { apply (render_children_each_inv _ _ _ _ _ _ Hch Hk).
    intros n e fs _ He Hfs.
    destruct (render_menu_child_inv _ _ _ _ _ _ Hstate He Hfs) as (f & -> & Hr & Hs).
    exists f. split_and!; try done. by apply MenuInner_child_Ok_type in He. }
  split.
  - unfold supported. clear -Hall.
    induction Hall as [|n f ns fs (_ & Hn & Hs) _ IH]; constructor; done.
  - rewrite !app_nil_r. eexists _, k. split; [reflexivity|].
    clear -Hall. induction Hall as [|n f ns fs (Hr & _) _ IH]; constructor; done.
Qed.

(** X14.  With a collection of size above zero, rendering a [Menu]
    completes exactly when no node has an unsupported type (every
    top-level node a section, separator or item, every child of a section
    a header or item), and whenever it completes, with whatever fuel, the
    result is one container holding one rendering per top-level node in
    order, followed by the portal. *)
Theorem Menu_renders_iff_supported (ctx : Context)
    (props props' : Object) (ref ref' : Value) (portal : option ReactPortal)
    (c : BaseCollection) :
  useContextProps props ref (ctx_menu ctx) = (props', ref') →
  useCollection props' = (portal, c) →
  0 < size c →
  (supported c ↔ ∃ fuel out, render fuel ctx (EMenu props ref) = Ok out) ∧
  (∀ fuel out, render fuel ctx (EMenu props ref) = Ok out →
     one_container c portal (Ok out)).
Proof.
  intros Hprops Hcoll Hsize. apply Nat.ltb_lt in Hsize.
  split; [split|].
  - intros Hsup.
    destruct (render_Menu_supported 0 ctx _ _ _ _ _ _ Hprops Hcoll Hsize Hsup)
      as (attrs & kids & Hr & _).
    eauto.
  - intros (fuel & out & Hout).
    by destruct (render_Menu_Ok_inv _ _ _ _ _ _ _ _ _ Hprops Hcoll Hsize Hout).
  - intros fuel out Hout.
    by destruct (render_Menu_Ok_inv _ _ _ _ _ _ _ _ _ Hprops Hcoll Hsize Hout).
Qed.

End Renders_iff.

Lemma Menu_renders_iff_supported_witness :
  0 < size separator_in_section ∧ ¬ supported separator_in_section.
Proof.
  split; [simpl; lia|].
  intros Hsup.
  destruct (proj1 (proj1
    (Menu_renders_iff_supported (H:=sample_hooks None separator_in_section)
       no_context ∅ ∅ VNull VNull None separator_in_section
       eq_refl eq_refl ltac:(simpl; lia))) Hsup) as (fuel & out & Hout).
  do 8 (destruct fuel as [|fuel]; [discriminate Hout|]); discriminate Hout.
Defined.

(** ** What a menu throws *)

Lemma bind_Throw_inv {A B} (r : Result A) (k : A → Result B) (e : Exception) :
  r ≫= k = Throw e → r = Throw e ∨ ∃ a, r = Ok a ∧ k a = Throw e.
Proof.
  destruct r as [a|e'|]; unfold mbind, Result_bind; intros Hr.
  - right. eauto.
  - injection Hr as ->. by left.
  - discriminate.
Qed.

Lemma for_of_Throw_inv {A B} (f : A → Result B) (items : list A) (e : Exception) :
  for_of f items = Throw e → ∃ item, item ∈ items ∧ f item = Throw e.
Proof.
  induction items as [|x xs IH]; simpl; [discriminate|].
  intros [Hx | (b & _ & Hrest)]%bind_Throw_inv.
  - exists x. split; [by left | done].
  - apply bind_Throw_inv in Hrest as [Hrest | (bs & _ & ?)]; [|discriminate].
    destruct (IH Hrest) as (item & Hin & Hitem).
    exists item. split; [by right | done].
Qed.

Lemma render_children_Throw_inv (render1 : Element → Result (list Fiber))
    (es : list Element) (e : Exception) :
  render_children render1 es = Throw e → ∃ el, el ∈ es ∧ render1 el = Throw e.
Proof.
  induction es as [|x xs IH]; simpl; [discriminate|].
  intros [Hx | (b & _ & Hrest)]%bind_Throw_inv.
  - exists x. split; [by left | done].
  - apply bind_Throw_inv in Hrest as [Hrest | (bs & _ & ?)]; [|discriminate].
    destruct (IH Hrest) as (el & Hin & Hel).
    exists el. split; [by right | done].
Qed.

Lemma render_children_first_Throw (render1 : Element → Result (list Fiber))
    (before after : list Element) (el : Element) (e : Exception) :
  Forall (fun x => ∃ fs, render1 x = Ok fs) before →
  render1 el = Throw e →
  render_children render1 (before ++ el :: after) = Throw e.
Proof.
  intros Hbefore Hel.
  induction Hbefore as [|x rest [fs Hfs] _ IH]; simpl.
  - by rewrite Hel.
  - rewrite Hfs. simpl. by rewrite IH.
Qed.

Lemma Forall2_Ok_elem_back {A B} (g : A → Result B) (xs : list A) (ys : list B)
    (y : B) :
  Forall2 (fun x y => g x = Ok y) xs ys → y ∈ ys → ∃ x, x ∈ xs ∧ g x = Ok y.
Proof.
  induction 1 as [|x y' xs ys Hx _ IH]; intros Hy; [by apply elem_of_nil in Hy|].
  apply elem_of_cons in Hy as [-> | Hy].
  - exists x. split; [by left | done].
  - destruct (IH Hy) as (x' & Hin & Hx'). exists x'. split; [by right | done].
Qed.

Section Throws.
Context `{Hooks}.

Lemma MenuInner_child_Throw_inv (n : Node) (e : Exception) :
  MenuInner_child n = Throw e →
  (type n ∉ menu_types) ∧
  e = Error ("Unsupported node type in Menu: " +:+ type n).
Proof.
  intros Hn. destruct (decide (type n ∈ menu_types)) as [Hin|Hout].
  - destruct (MenuInner_child_supported n Hin) as [el Hel]. congruence.
  - split; [done|]. rewrite (MenuInner_child_unsupported n Hout) in Hn. congruence.
Qed.

Lemma MenuSection_child_Throw_inv headingProps headingRef (child : Node)
    (e : Exception) :
  MenuSection_child headingProps headingRef child = Throw e →
  (type child ∉ section_types) ∧
  e = Error ("Unsupported element type in Section: " +:+ type child).
Proof.
  intros Hn. destruct (decide (type child ∈ section_types)) as [Hin|Hout].
  - destruct (MenuSection_child_supported headingProps headingRef child Hin)
      as [el Hel]. congruence.
  - split; [done|].
    rewrite (MenuSection_child_unsupported _ _ child Hout) in Hn. congruence.
Qed.

Lemma render_wrapped_node_no_Throw fuel ctx tag attrs values n e :
  render fuel ctx (EHost tag attrs [EProvider values [ENode n]]) ≠ Throw e.
Proof. by destruct fuel as [|[|[|fuel]]]. Qed.

Lemma render_MenuItemInner_Throw fuel ctx item e :
  render fuel ctx (EMenuItemInner item) = Throw e →
  ctx_menuState ctx = None ∧ e = TypeError.
Proof.
  destruct fuel as [|fuel]; [discriminate|]. simpl.
  destruct (ctx_menuState ctx) as [state|]; [|by intros [= <-]].
  intros [Hr | (o & _ & ?)]%bind_Throw_inv; [|discriminate].
  by apply render_wrapped_node_no_Throw in Hr.
Qed.

Lemma render_section_child_no_Throw fuel ctx state headingProps headingRef
    child el e :
  ctx_menuState ctx = Some state →
  MenuSection_child headingProps headingRef child = Ok el →
  render fuel ctx el ≠ Throw e.
Proof.
  intros Hstate. unfold MenuSection_child.
  destruct (String.eqb (type child) "header").
  { intros [= <-]. by destruct fuel as [|[|fuel]]. }
  destruct (String.eqb (type child) "item"); [|discriminate].
  intros [= <-] [Hnone _]%render_MenuItemInner_Throw. congruence.
Qed.

Lemma render_MenuSection_Throw fuel ctx state p e :
  ctx_menuState ctx = Some state →
  render fuel ctx (EMenuSection p) = Throw e →
  ∃ child, child ∈ getChildren (collection state) (key (section p)) ∧
    (type child ∉ section_types) ∧
    e = Error ("Unsupported element type in Section: " +:+ type child).
Proof.
  intros Hstate Hr.
  destruct fuel as [|fuel]; [discriminate|].
  rewrite (render_EMenuSection _ _ state) in Hr by done.
  apply bind_Throw_inv in Hr as [Hsec | (el & Hel & Hr)].
  - unfold MenuSection, useCachedChildren in Hsec.
    destruct (useSlot (section p)) as [headingRef heading].
    apply bind_Throw_inv in Hsec as [Hloop | (? & _ & ?)]; [|discriminate].
    apply for_of_Throw_inv in Hloop as (child & Hin & Hchild).
    apply MenuSection_child_Throw_inv in Hchild as [Ht ->]. eauto.
  - apply bind_Throw_inv in Hr as [Hr | (? & _ & ?)]; [|discriminate].
    apply MenuSection_Ok_inv in Hel as (children & Hch & ->).
    apply for_of_Ok_inv in Hch.
    destruct fuel as [|fuel]; [discriminate|].
    rewrite render_EHost in Hr.
    apply bind_Throw_inv in Hr as [Hr | (? & _ & ?)]; [|discriminate].
    apply render_children_Throw_inv in Hr as (el & Hin & Hel).
    destruct (Forall2_Ok_elem_back _ _ _ _ Hch Hin) as (child & _ & Hchild).
    by destruct (render_section_child_no_Throw fuel ctx _ _ _ _ _ e Hstate Hchild).
Qed.

Lemma render_menu_child_Throw fuel ctx state n el e :
  ctx_menuState ctx = Some state →
  MenuInner_child n = Ok el →
  render fuel ctx el = Throw e →
  type n = "section" ∧
  ∃ child, child ∈ getChildren (collection state) (key n) ∧
    (type child ∉ section_types) ∧
    e = Error ("Unsupported element type in Section: " +:+ type child).
Proof.
  intros Hstate. unfold MenuInner_child.
  destruct (String.eqb_spec (type n) "section") as [Ht|_].
  { intros [= <-] Hr. split; [done|].
    by apply (render_MenuSection_Throw _ _ _ _ _ Hstate Hr). }
  destruct (String.eqb (type n) "separator").
  { intros [= <-]. by destruct fuel as [|[|fuel]]. }
  destruct (String.eqb (type n) "item"); [|discriminate].
  intros [= <-] [Hnone _]%render_MenuItemInner_Throw. congruence.
Qed.

(** X15.  Rendering a [Menu] throws nothing but the two errors of the
    file: whatever the fuel and the surrounding context, an exception it
    throws is ["Unsupported node type in Menu: " + type] for a top-level
    node of an unsupported type, or
    ["Unsupported element type in Section: " + type] for a child of an
    unsupported type of a top-level section.  It is never the [TypeError]
    of a missing menu state. *)
Theorem Menu_throws_only_unsupported (fuel : nat) (ctx : Context)
    (props props' : Object) (ref ref' : Value) (portal : option ReactPortal)
    (c : BaseCollection) (e : Exception) :
  useContextProps props ref (ctx_menu ctx) = (props', ref') →
  useCollection props' = (portal, c) →
  render fuel ctx (EMenu props ref) = Throw e →
  (∃ n, n ∈ nodes c ∧ (type n ∉ menu_types) ∧
        e = Error ("Unsupported node type in Menu: " +:+ type n)) ∨
  (∃ s child, s ∈ nodes c ∧ type s = "section" ∧
        child ∈ getChildren c (key s) ∧ (type child ∉ section_types) ∧
        e = Error ("Unsupported element type in Section: " +:+ type child)).
Proof.
  intros Hprops Hcoll Hr.
  destruct fuel as [|fuel]; [discriminate|].
  rewrite render_EMenu in Hr.
  apply bind_Throw_inv in Hr as [Hr | (? & _ & ?)]; [|discriminate].
  unfold Menu in Hr. rewrite Hprops, Hcoll in Hr.
  destruct fuel as [|fuel]; [discriminate|].
  rewrite render_EFragment in Hr.
  apply render_children_Throw_inv in Hr as (el & Hin & Hr).
  apply elem_of_cons in Hin as [-> | Hin].
  2:{ apply list_elem_of_singleton in Hin as ->.
      destruct fuel as [|fuel]; [discriminate|]. by destruct portal. }
  destruct (0 <? size c); [|by destruct fuel].
  destruct fuel as [|fuel]; [discriminate|].
  rewrite render_EMenuInner in Hr.
  apply bind_Throw_inv in Hr as [Hinner | (el & Hel & Hr)].
  - left. unfold MenuInner, useCachedChildren in Hinner.
    apply bind_Throw_inv in Hinner as [Hloop | (? & _ & ?)]; [|discriminate].
    apply for_of_Throw_inv in Hloop as (n & Hn & Hthrow).
    apply MenuInner_child_Throw_inv in Hthrow as [Ht ->]. eauto.
  - right.
    apply bind_Throw_inv in Hr as [Hr | (? & _ & ?)]; [|discriminate].
    apply MenuInner_Ok_inv in Hel as (children & Hch & ->).
    apply for_of_Ok_inv in Hch.
    destruct fuel as [|fuel]; [discriminate|].
    rewrite render_EHost in Hr.
    apply bind_Throw_inv in Hr as [Hr | (? & _ & ?)]; [|discriminate].
    apply render_children_Throw_inv in Hr as (el & Hin & Hr).
    apply list_elem_of_singleton in Hin as ->.
    destruct fuel as [|fuel]; [discriminate|].
    rewrite render_EProvider in Hr.
    apply render_children_Throw_inv in Hr as (el & Hin & Hr).
    destruct (Forall2_Ok_elem_back _ _ _ _ Hch Hin) as (n & Hn & Hchild).
    assert (Hstate : ctx_menuState
              (provide [MenuStateContext
                          (useTreeState (<["children":=VUndefined]> props') c);
                        SeparatorContext {[ "elementType" := VStr "div" ]}] ctx)
            = Some (useTreeState (<["children":=VUndefined]> props') c))
      by reflexivity.
    destruct (render_menu_child_Throw _ _ _ _ _ _ Hstate Hchild Hr)
      as (Ht & child & Hc & Hct & ->).
    exists n, child. by split_and!.
Qed.

End Throws.

Lemma Menu_throws_only_unsupported_witness :
  ∃ s child,
    s ∈ nodes separator_in_section ∧ type s = "section" ∧
    child ∈ getChildren separator_in_section (key s) ∧
    (type child ∉ section_types) ∧
    Error "Unsupported element type in Section: separator"
    = Error ("Unsupported element type in Section: " +:+ type child).
Proof.
  destruct (Menu_throws_only_unsupported (H:=sample_hooks None separator_in_section)
              11 no_context ∅ ∅ VNull VNull None separator_in_section
              (Error "Unsupported element type in Section: separator")
              eq_refl eq_refl eq_refl)
    as [(n & Hn & Ht & He) | Hsec].
  - exfalso. apply list_elem_of_singleton in Hn as ->. discriminate He.
  - exact Hsec.
Defined.

(** ** Which error comes first *)

Section Error_order.
Context `{Hooks}.

Lemma render_Menu_nonempty (fuel : nat) (ctx : Context)
    (props props' : Object) (ref ref' : Value) (portal : option ReactPortal)
    (c : BaseCollection) :
  useContextProps props ref (ctx_menu ctx) = (props', ref') →
  useCollection props' = (portal, c) →
  0 < size c →
  render (3 + fuel) ctx (EMenu props ref)
  = (out ← (inner ← (el ← MenuInner props' c ref';
                     o ← render fuel ctx el;
                     Ok [FComponent IMenuInner o]);
            Ok (inner ++ portal_fibers portal));
     Ok [FComponent IMenu out]).
Proof.
  intros Hprops Hcoll Hsize. apply Nat.ltb_lt in Hsize.
  change (3 + fuel) with (S (S (S fuel))).
  rewrite render_EMenu. unfold Menu. rewrite Hprops, Hcoll, Hsize.
  rewrite render_EFragment. cbn [render_children].
  rewrite render_EMenuInner, render_portal. cbn [mbind Result_bind].
  by rewrite app_nil_r.
Qed.

(** X16.  An unsupported top-level node is reported before anything of a
    section is looked at: when the first top-level node of an unsupported
    type is [n], rendering the [Menu] throws
    ["Unsupported node type in Menu: " + n.type], whatever the children of
    the sections before [n] are. *)
Theorem Menu_top_level_error_first (fuel : nat) (ctx : Context)
    (props props' : Object) (ref ref' : Value) (portal : option ReactPortal)
    (c : BaseCollection) (before after : list Node) (n : Node) :
  useContextProps props ref (ctx_menu ctx) = (props', ref') →
  useCollection props' = (portal, c) →
  0 < size c →
  nodes c = before ++ n :: after →
  Forall (fun m => type m ∈ menu_types) before →
  type n ∉ menu_types →
  render (3 + fuel) ctx (EMenu props ref)
  = Throw (Error ("Unsupported node type in Menu: " +:+ type n)).
Proof.
  intros Hprops Hcoll Hsize Hnodes Hbefore Hn.
  rewrite (render_Menu_nonempty _ _ _ _ _ _ _ _ Hprops Hcoll Hsize).
  unfold MenuInner, useCachedChildren.
  change (nodes (collection (useTreeState (<["children":=VUndefined]> props') c)))
    with (nodes c).
  rewrite Hnodes.
  rewrite (for_of_first_Throw MenuInner_child before after n
             (Error ("Unsupported node type in Menu: " +:+ type n))).
  - reflexivity.
  - eapply Forall_impl; [exact Hbefore|]. apply MenuInner_child_supported.
  - by apply MenuInner_child_unsupported.
Qed.

Lemma render_MenuSection_first_Throw fuel ctx state p before after child :
  ctx_menuState ctx = Some state →
  getChildren (collection state) (key (section p)) = before ++ child :: after →
  Forall (fun x => type x ∈ section_types) before →
  type child ∉ section_types →
  render (S fuel) ctx (EMenuSection p)
  = Throw (Error ("Unsupported element type in Section: " +:+ type child)).
Proof.
  intros Hstate Hch Hbefore Hchild.
  rewrite (render_EMenuSection _ _ state) by done.
  unfold MenuSection, useCachedChildren.
  destruct (useSlot (section p)) as [headingRef heading].
  rewrite Hch.
  rewrite (for_of_first_Throw _ before after child
             (Error ("Unsupported element type in Section: " +:+ type child))).
  - reflexivity.
  - apply (Forall_impl _ _ _ Hbefore).
    intros x. apply MenuSection_child_supported.
  - by apply MenuSection_child_unsupported.
Qed.

(** X17.  When every top-level node has a supported type, the first
    section with a child of an unsupported type decides the error: with
    the sections before [s] free of such children and [child] the first
    such child of [s], rendering the [Menu] throws
    ["Unsupported element type in Section: " + child.type], whatever
    comes after [s]. *)
Theorem Menu_section_error_first (fuel : nat) (ctx : Context)
    (props props' : Object) (ref ref' : Value) (portal : option ReactPortal)
    (c : BaseCollection) (before after : list Node) (s : Node)
    (children_before children_after : list Node) (child : Node) :
  useContextProps props ref (ctx_menu ctx) = (props', ref') →
  useCollection props' = (portal, c) →
  0 < size c →
  Forall (fun m => type m ∈ menu_types) (nodes c) →
  nodes c = before ++ s :: after →
  Forall (fun m => type m = "section" →
            Forall (fun x => type x ∈ section_types) (getChildren c (key m)))
    before →
  type s = "section" →
  getChildren c (key s) = children_before ++ child :: children_after →
  Forall (fun x => type x ∈ section_types) children_before →
  type child ∉ section_types →
  render (11 + fuel) ctx (EMenu props ref)
  = Throw (Error ("Unsupported element type in Section: " +:+ type child)).
Proof.
  intros Hprops Hcoll Hsize Htypes Hnodes Hbefore Hs Hch Hcb Hchild.
  change (11 + fuel) with (3 + (8 + fuel)).
  rewrite (render_Menu_nonempty _ _ _ _ _ _ _ _ Hprops Hcoll Hsize).
  destruct (for_of_all_Ok MenuInner_child (nodes c)) as (els & Hels & Hall).
  { eapply Forall_impl; [exact Htypes|]. apply MenuInner_child_supported. }
  unfold MenuInner, useCachedChildren.
  change (nodes (collection (useTreeState (<["children":=VUndefined]> props') c)))
    with (nodes c).
  rewrite Hels. cbn [mbind Result_bind].
  change (8 + fuel) with (S (S (6 + fuel))).
  rewrite render_EHost. cbn [render_children]. rewrite render_EProvider.
  set (state := useTreeState (<["children":=VUndefined]> props') c).
  set (ctx' := provide [MenuStateContext state;
                         SeparatorContext {[ "elementType" := VStr "div" ]}] ctx).
  assert (Hstate : ctx_menuState ctx' = Some state) by reflexivity.
  rewrite Hnodes in Hall.
  apply Forall2_app_inv_l in Hall as (els1 & els2 & Hall1 & Hall2 & ->).
  apply Forall2_cons_inv_l in Hall2 as (el & els3 & Hel & _ & ->).
  rewrite (render_children_first_Throw _ els1 els3 el
             (Error ("Unsupported element type in Section: " +:+ type child))).
  - reflexivity.
  - clear -Hall1 Hbefore Hstate.
    induction Hall1 as [|m e ms es Hm _ IH]; [constructor|].
    inversion Hbefore as [|? ? Hm' Hms]; subst.
    constructor; [|by apply IH].
    destruct (render_menu_child_Ok fuel ctx' state m e Hstate Hm Hm')
      as (f & Hf & _).
    eauto.
  - unfold MenuInner_child in Hel. rewrite Hs in Hel. simpl in Hel.
    injection Hel as <-.
    by apply (render_MenuSection_first_Throw _ _ state _ children_before
                children_after child).
Qed.

End Error_order.

Lemma Menu_top_level_error_first_witness :
  render (H:=sample_hooks None header_after_section) (3 + 0) no_context
    (EMenu ∅ VNull)
  = Throw (Error "Unsupported node type in Menu: header").
Proof.
  apply (Menu_top_level_error_first (H:=sample_hooks None header_after_section)
           0 no_context ∅ ∅ VNull VNull None header_after_section
           [sample_node "section" (KStr "s") ∅] []
           (sample_node "header" (KStr "h") ∅)).
  - reflexivity.
  - reflexivity.
  - simpl. lia.
  - reflexivity.
  - repeat constructor.
  - unfold menu_types. simpl. rewrite !not_elem_of_cons.
    split_and!; try discriminate. apply not_elem_of_nil.
Defined.

Lemma Menu_section_error_first_witness :
  render (H:=sample_hooks None three_sections) (11 + 0) no_context (EMenu ∅ VNull)
  = Throw (Error "Unsupported element type in Section: separator").
Proof.
  apply (Menu_section_error_first (H:=sample_hooks None three_sections)
           0 no_context ∅ ∅ VNull VNull None three_sections
           [sample_node "section" (KStr "a") ∅]
           [sample_node "section" (KStr "c") ∅]
           (sample_node "section" (KStr "b") ∅)
           [sample_node "item" (KStr "b0") ∅]
           [sample_node "footer" (KStr "b2") ∅]
           (sample_node "separator" (KStr "b1") ∅)).
  - reflexivity.
  - reflexivity.
  - simpl. lia.
  - repeat constructor.
  - reflexivity.
  - constructor; [|constructor]. intros _. simpl. repeat constructor.
  - reflexivity.
  - reflexivity.
  - repeat constructor.
  - unfold section_types. simpl. rewrite !not_elem_of_cons.
    split_and!; try discriminate. apply not_elem_of_nil.
Defined.

(** ** The menu state around a menu *)

Lemma render_children_ext (render1 render2 : Element → Result (list Fiber))
    (es : list Element) :
  (∀ e, render1 e = render2 e) →
  render_children render1 es = render_children render2 es.
Proof.
  intros Hext. induction es as [|e es IH]; simpl; [done|].
  by rewrite Hext, IH.
Qed.

Lemma provide_agree (values : list ContextEntry) (ctx ctx' : Context) :
  ctx_menu ctx = ctx_menu ctx' →
  ctx_menuState ctx = ctx_menuState ctx' →
  ctx_menu (provide values ctx) = ctx_menu (provide values ctx') ∧
  ctx_menuState (provide values ctx) = ctx_menuState (provide values ctx').
Proof.
  intros Hm Hs. induction values as [|e values [IHm IHs]]; [done|].
  simpl. by destruct e.
Qed.

Section Context_read.
Context `{Hooks}.

Lemma render_context_ext (fuel : nat) (ctx ctx' : Context) (e : Element) :
  ctx_menu ctx = ctx_menu ctx' →
  ctx_menuState ctx = ctx_menuState ctx' →
  render fuel ctx e = render fuel ctx' e.
Proof.
  revert ctx ctx' e. induction fuel as [|fuel IH]; intros ctx ctx' e Hm Hs; [done|].
  destruct e as [| |p|n|es|tag attrs es|vals es|ext attrs es|props ref
                 |props c ref|p|item]; simpl; try done.
  - apply render_children_ext. intros e. by apply IH.
  - rewrite (render_children_ext _ (render fuel ctx')); [done|].
    intros e. by apply IH.
  - apply render_children_ext. intros e.
    destruct (provide_agree vals ctx ctx' Hm Hs). by apply IH.
  - rewrite (render_children_ext _ (render fuel ctx')); [done|].
    intros e. by apply IH.
  - rewrite Hm. by rewrite (IH ctx ctx').
  - destruct (MenuInner _ _ _); simpl; try done. by rewrite (IH ctx ctx').
  - rewrite Hs. destruct (ctx_menuState ctx') as [state|] eqn:Hs'; [|done].
    destruct (MenuSection _ _); simpl; try done.
    by rewrite (IH ctx ctx') by congruence.
  - rewrite Hs. destruct (ctx_menuState ctx') as [state|] eqn:Hs'; [|done].
    by rewrite (IH ctx ctx') by congruence.
Qed.

Lemma render_EMenuInner_context (fuel : nat) (ctx ctx' : Context)
    (props : Object) (c : BaseCollection) (ref : Value) :
  ctx_menu ctx = ctx_menu ctx' →
  render fuel ctx (EMenuInner props c ref) = render fuel ctx' (EMenuInner props c ref).
Proof.
  intros Hm. destruct fuel as [|fuel]; [done|].
  rewrite !render_EMenuInner.
  destruct (MenuInner props c ref) as [el| |] eqn:Hel; try done.
  apply MenuInner_Ok_inv in Hel as (children & _ & ->).
  cbn [mbind Result_bind].
  destruct fuel as [|fuel]; [done|].
  rewrite !render_EHost. cbn [render_children].
  destruct fuel as [|fuel]; [done|].
  rewrite !render_EProvider.
  rewrite (render_children_ext _
             (render fuel
                (provide [MenuStateContext
                            (useTreeState (<["children":=VUndefined]> props) c);
                          SeparatorContext {[ "elementType" := VStr "div" ]}] ctx')));
    [done|].
  intros e. by apply render_context_ext.
Qed.

(** X18.  A [Menu] shadows the menu state of its surroundings: rendering
    it gives the same result, tree or exception, under two contexts with
    the same [MenuContext], whatever [MenuStateContext] an enclosing menu
    has published, because [MenuInner] publishes the state it built around
    all it renders. *)
Theorem Menu_shadows_outer_menu_state (fuel : nat) (ctx ctx' : Context)
    (props : Object) (ref : Value) :
  ctx_menu ctx = ctx_menu ctx' →
  render fuel ctx (EMenu props ref) = render fuel ctx' (EMenu props ref).
Proof.
  intros Hm.
  destruct fuel as [|fuel]; [done|].
  rewrite !render_EMenu, <- Hm. unfold Menu.
  destruct (useContextProps props ref (ctx_menu ctx)) as [props' ref'].
  destruct (useCollection props') as [portal c].
  destruct fuel as [|fuel]; [done|].
  rewrite !render_EFragment. cbn [render_children].
  assert (Hportal : render fuel ctx
                      (match portal with Some p => EPortal p | None => ENull end)
                    = render fuel ctx'
                        (match portal with Some p => EPortal p | None => ENull end)).
  { destruct fuel; [done|]. by destruct portal. }
  rewrite Hportal.
  destruct (0 <? size c).
  - by rewrite (render_EMenuInner_context fuel ctx ctx').
  - by destruct fuel.
Qed.

End Context_read.

Lemma Menu_shadows_outer_menu_state_witness :
  render (H:=sample_hooks (Some 7) sample_collection) 11
    {| ctx_menu := None;
       ctx_menuState := Some (sample_state header_collection multiple);
       ctx_popover := None |}
    (EMenu ∅ VNull)
  = render (H:=sample_hooks (Some 7) sample_collection) 11 no_context (EMenu ∅ VNull).
Proof.
  apply (Menu_shadows_outer_menu_state (H:=sample_hooks (Some 7) sample_collection) 11
           {| ctx_menu := None;
              ctx_menuState := Some (sample_state header_collection multiple);
              ctx_popover := None |}
           no_context ∅ VNull eq_refl).
Defined.

(** ** The state the items are rendered with *)

Lemma flat_map_children_eq {A B} (g : A → Result Element)
    (render1 : Element → Result (list Fiber)) (m : Fiber → list B)
    (h : A → list B) (xs : list A) (es : list Element) (out : list Fiber) :
  Forall2 (fun x e => g x = Ok e) xs es →
  render_children render1 es = Ok out →
  (∀ x e fs, g x = Ok e → render1 e = Ok fs → flat_map m fs = h x) →
  flat_map m out = flat_map h xs.
Proof.
  intros Hg. revert out.
  induction Hg as [|x e xs es Hx _ IH]; simpl; intros out Hout Hh.
  - by injection Hout as <-.
  - apply bind_Ok in Hout as (fs & Hfs & Hout).
    apply bind_Ok in Hout as (gs & Hgs & Hout).
    injection Hout as <-.
    rewrite flat_map_app, (Hh x e fs Hx Hfs). f_equal. by apply IH.
Qed.

Lemma flat_map_map_if {A B} (p : A → bool) (f : A → B) (l : list A) :
  flat_map (fun x => if p x then [f x] else []) l = map f (List.filter p l).
Proof.
  induction l as [|x l IH]; simpl; [done|].
  rewrite IH. by destruct (p x).
Qed.

Lemma map_flat_map {A B C} (f : B → C) (h : A → list B) (l : list A) :
  map f (flat_map h l) = flat_map (fun x => map f (h x)) l.
Proof.
  induction l as [|x l IH]; simpl; [done|]. by rewrite map_app, IH.
Qed.

Section Item_state.
Context `{Hooks}.

Lemma renderings_MenuItemInner fuel ctx state item out :
  ctx_menuState ctx = Some state →
  render fuel ctx (EMenuItemInner item) = Ok out →
  flat_map mounted_renderings out = [(item, MenuItemInner_fiber state item)].
Proof.
  intros Hstate Hout.
  destruct fuel as [|fuel]; [discriminate|].
  rewrite (render_EMenuItemInner _ _ state) in Hout by done.
  apply bind_Ok in Hout as (o & Ho & Hout). injection Hout as <-.
  apply render_wrapped_node_inv in Ho as ->. reflexivity.
Qed.

Lemma renderings_section_child fuel ctx state headingProps headingRef child el out :
  ctx_menuState ctx = Some state →
  MenuSection_child headingProps headingRef child = Ok el →
  render fuel ctx el = Ok out →
  flat_map mounted_renderings out
  = if String.eqb (type child) "item"
    then [(child, MenuItemInner_fiber state child)] else [].
Proof.
  intros Hstate. unfold MenuSection_child.
  destruct (String.eqb_spec (type child) "header") as [Ht|_].
  { intros [= <-] Hout. rewrite Ht.
    destruct fuel as [|[|fuel]]; try discriminate.
    by injection Hout as <-. }
  destruct (String.eqb (type child) "item"); [|discriminate].
  intros [= <-] Hout. by apply (renderings_MenuItemInner fuel ctx).
Qed.

Lemma renderings_MenuSection fuel ctx state p out :
  ctx_menuState ctx = Some state →
  render fuel ctx (EMenuSection p) = Ok out →
  flat_map mounted_renderings out
  = map (fun item => (item, MenuItemInner_fiber state item))
      (List.filter (fun child => String.eqb (type child) "item")
         (getChildren (collection state) (key (section p)))).
Proof.
  intros Hstate Hout.
  destruct fuel as [|fuel]; [discriminate|].
  rewrite (render_EMenuSection _ _ state) in Hout by done.
  apply bind_Ok in Hout as (el & Hel & Hout).
  apply bind_Ok in Hout as (o & Ho & Hout).
  injection Hout as <-.
  apply MenuSection_Ok_inv in Hel as (children & Hch & ->).
  apply for_of_Ok_inv in Hch.
  destruct fuel as [|fuel]; [discriminate|].
  rewrite render_EHost in Ho.
  apply bind_Ok in Ho as (kids & Hkids & Ho).
  injection Ho as <-.
  simpl. rewrite !app_nil_r.
  rewrite <- flat_map_map_if.
  apply (flat_map_children_eq _ _ _ _ _ _ _ Hch Hkids).
  intros x e fs He Hfs.
  by apply (renderings_section_child fuel ctx state _ _ _ _ _ Hstate He Hfs).
Qed.

Lemma renderings_menu_child fuel ctx state n el out :
  ctx_menuState ctx = Some state →
  MenuInner_child n = Ok el →
  render fuel ctx el = Ok out →
  flat_map mounted_renderings out
  = map (fun item => (item, MenuItemInner_fiber state item))
      (if String.eqb (type n) "section" then
         List.filter (fun child => String.eqb (type child) "item")
           (getChildren (collection state) (key n))
       else if String.eqb (type n) "item" then [n]
       else []).
Proof.
  intros Hstate. unfold MenuInner_child.
  destruct (String.eqb (type n) "section").
  { intros [= <-] Hout. by apply (renderings_MenuSection _ _ _ _ _ Hstate Hout). }
  destruct (String.eqb_spec (type n) "separator") as [Ht|_].
  { intros [= <-] Hout. rewrite Ht.
    destruct fuel as [|fuel]; [discriminate|].
    by injection Hout as <-. }
  destruct (String.eqb (type n) "item"); [|discriminate].
  intros [= <-] Hout. by apply (renderings_MenuItemInner fuel ctx).
Qed.

(** X19.  Every item of a rendered menu is rendered with the tree state
    that menu built from its own props and collection: each mounted
    [MenuItemInner] holds exactly what [MenuItemInner] returns for its node
    under that state, whatever menu state the surroundings had
    published. *)
Theorem Menu_items_use_menu_state (fuel : nat) (ctx : Context)
    (props props' : Object) (ref ref' : Value) (portal : option ReactPortal)
    (c : BaseCollection) (out : list Fiber) :
  useContextProps props ref (ctx_menu ctx) = (props', ref') →
  useCollection props' = (portal, c) →
  render fuel ctx (EMenu props ref) = Ok out →
  flat_map mounted_renderings out
  = if 0 <? size c
    then map (fun item =>
                (item,
                 MenuItemInner_fiber
                   (useTreeState (<["children":=VUndefined]> props') c) item))
           (item_nodes c)
    else [].
Proof.
  intros Hprops Hcoll Hout.
  destruct fuel as [|fuel]; [discriminate|].
  rewrite render_EMenu in Hout.
  apply bind_Ok in Hout as (o & Ho & Hout). injection Hout as <-.
  unfold Menu in Ho. rewrite Hprops, Hcoll in Ho.
  destruct fuel as [|fuel]; [discriminate|].
  rewrite render_EFragment in Ho. cbn [render_children] in Ho.
  apply bind_Ok in Ho as (inner & Hinner & Ho).
  apply bind_Ok in Ho as (rest & Hrest & Ho). injection Ho as <-.
  apply bind_Ok in Hrest as (pf & Hpf & Hrest). injection Hrest as <-.
  assert (Hportal : flat_map mounted_renderings pf = []).
  { destruct fuel as [|fuel]; [discriminate|].
    destruct portal; injection Hpf as <-; reflexivity. }
  simpl. rewrite !app_nil_r, flat_map_app, Hportal, app_nil_r.
  destruct (0 <? size c).
  2:{ destruct fuel as [|fuel]; [discriminate|]. by injection Hinner as <-. }
  destruct fuel as [|fuel]; [discriminate|].
  rewrite render_EMenuInner in Hinner.
  apply bind_Ok in Hinner as (el & Hel & Hinner).
  apply bind_Ok in Hinner as (o & Ho & Hinner). injection Hinner as <-.
  apply MenuInner_Ok_inv in Hel as (children & Hch & ->).
  apply for_of_Ok_inv in Hch.
  destruct fuel as [|fuel]; [discriminate|].
  rewrite render_EHost in Ho. cbn [render_children] in Ho.
  apply bind_Ok in Ho as (kids & Hkids & Ho). injection Ho as <-.
  apply bind_Ok in Hkids as (k & Hk & Hkids). injection Hkids as <-.
  destruct fuel as [|fuel]; [discriminate|].
  rewrite render_EProvider in Hk.
  simpl. rewrite !app_nil_r. unfold item_nodes.
  rewrite map_flat_map.
  apply (flat_map_children_eq _ _ _ _ _ _ _ Hch Hk).
  intros n e fs He Hfs.
  assert (Hstate : ctx_menuState
            (provide [MenuStateContext
                        (useTreeState (<["children":=VUndefined]> props') c);
                      SeparatorContext {[ "elementType" := VStr "div" ]}] ctx)
          = Some (useTreeState (<["children":=VUndefined]> props') c))
    by reflexivity.
  exact (renderings_menu_child _ _ _ _ _ _ Hstate He Hfs).
Qed.

End Item_state.

Lemma Menu_items_use_menu_state_witness :
  ∃ out,
    render (H:=sample_hooks (Some 7) sample_collection) 11
      {| ctx_menu := None;
         ctx_menuState := Some (sample_state header_collection multiple);
         ctx_popover := None |}
      (EMenu ∅ VNull)
    = Ok out ∧
    map fst (flat_map mounted_renderings out)
    = [sample_node "item" (KNum 2) ∅;
       sample_node "item" (KNum 1) {[ "href" := VStr "/a" ]}].
Proof.
  eexists. split; [reflexivity|].
  rewrite (Menu_items_use_menu_state (H:=sample_hooks (Some 7) sample_collection)
             11
             {| ctx_menu := None;
                ctx_menuState := Some (sample_state header_collection multiple);
                ctx_popover := None |}
             ∅ ∅ VNull VNull (Some 7) sample_collection _
             eq_refl eq_refl eq_refl).
  reflexivity.
Defined.
